(** * voice_assistant.py: session manager of the ElevenLabs voice assistant

    A shallow embedding of [src/voice_assistant.py].  The class
    [VoiceAssistant] owns one conversation with an external SDK object
    ([Conversation]); the script itself contributes configuration from the
    environment, four callbacks that append to an in-memory list, a SIGINT
    handler, and a JSON writer.

    The embedding makes the ambient effects explicit:
    - [os.environ] and the [.env] file are finite maps of strings;
    - the file system is a set of directories and a map of files;
    - [datetime.now()] reads a clock, one reading per call;
    - the [logging] sink is a list of emitted records;
    - the SDK is an oracle: a script that says which of its calls raise and
      which callbacks it delivers, together with a trace of the calls it
      received.
    Python exceptions and [sys.exit] are results of a small state monad. *)

From Stdlib Require Import ZArith Ascii String List Lia.
From stdpp Require Import base option strings gmap.

Local Open Scope string_scope.

(** ** Python values the program handles *)

(** Exceptions: the class name and [str(e)], which is what the handlers
    format into their log lines.  Only subclasses of [Exception] occur. *)
Record exn := mkExn { exn_class : string; exn_str : string }.

(** What evaluating a statement can do: finish, raise, or leave the
    interpreter through [sys.exit] ([SystemExit] is not an [Exception], so
    no handler of this program catches it). *)
Inductive result (A : Type) :=
| Ok (a : A)
| Raise (e : exn)
| Exit (code : Z).
Arguments Ok {A} a.
Arguments Raise {A} e.
Arguments Exit {A} code.

(** [datetime] objects, field by field. *)
Record datetime := mkDatetime {
  year : nat; month : nat; day : nat;
  hour : nat; minute : nat; second : nat;
  microsecond : nat
}.

(** The data handed to [json.dump]. *)
#[local] Set Warnings "-register-all".
Inductive json :=
| JNull
| JString (s : string)
| JArray (l : list json)
| JObject (kvs : list (string * json)).

(** ** Formatting *)

Definition digit (n : nat) : ascii := ascii_of_nat (48 + n mod 10).

(** [digits w n]: the [w] low decimal digits of [n], zero padded (the
    [%02d], [%04d], [%06d] of the C formatting behind [strftime] and
    [isoformat] on fields that are in range). *)
Fixpoint digits (w n : nat) : string :=
  match w with
  | O => ""
  | S w' => digits w' (n / 10) ++ String (digit n) ""
  end.

(** [d.strftime("%Y%m%d_%H%M%S")] *)
Definition strftime_Ymd_HMS (d : datetime) : string :=
  digits 4 (year d) ++ digits 2 (month d) ++ digits 2 (day d) ++ "_" ++
  digits 2 (hour d) ++ digits 2 (minute d) ++ digits 2 (second d).

(** [d.isoformat()]: the fraction is printed only when it is not zero. *)
Definition isoformat (d : datetime) : string :=
  digits 4 (year d) ++ "-" ++ digits 2 (month d) ++ "-" ++ digits 2 (day d) ++
  "T" ++ digits 2 (hour d) ++ ":" ++ digits 2 (minute d) ++ ":" ++
  digits 2 (second d) ++
  (if Nat.eqb (microsecond d) 0 then "" else "." ++ digits 6 (microsecond d)).

(** The formatting functions are never unfolded by [simpl]: on a symbolic
    date that only produces large terms. *)
Arguments digit : simpl never.
Arguments digits : simpl never.
Arguments strftime_Ymd_HMS : simpl never.
Arguments isoformat : simpl never.

(** ** Paths *)

(** The part of a path before its last slash, [None] when it has none. *)
Fixpoint dirname_aux (s : string) : option string :=
  match s with
  | EmptyString => None
  | String c r =>
      match dirname_aux r with
      | Some d => Some (String c d)
      | None => if Ascii.eqb c "/" then Some EmptyString else None
      end
  end.

(** [os.path.dirname] on the relative paths of this program; the empty
    string stands for the working directory. *)
Definition dirname (s : string) : string := default "" (dirname_aux s).

(** ** The state monad of the embedding *)

Definition M (S A : Type) : Type := S -> result A * S.

Definition ret {S A} (a : A) : M S A := fun s => (Ok a, s).

Definition bind {S A B} (m : M S A) (k : A -> M S B) : M S B :=
  fun s =>
    match m s with
    | (Ok a, s') => k a s'
    | (Raise e, s') => (Raise e, s')
    | (Exit c, s') => (Exit c, s')
    end.

Definition raise {S A} (e : exn) : M S A := fun s => (Raise e, s).

(** [sys.exit(code)] *)
Definition sys_exit {S A} (code : Z) : M S A := fun s => (Exit code, s).

Definition get {S} : M S S := fun s => (Ok s, s).
Definition modify {S} (f : S -> S) : M S unit := fun s => (Ok tt, f s).

(** [try: body except Exception as e: handler e].  The handler runs in the
    state the body left behind; [SystemExit] passes through. *)
Definition try_except {S A} (body : M S A) (handler : exn -> M S A) : M S A :=
  fun s =>
    match body s with
    | (Raise e, s') => handler e s'
    | r => r
    end.

Declare Scope py_scope.
Delimit Scope py_scope with py.
Notation "x <- m ;; k" := (bind m (fun x => k))
  (at level 100, m at next level, right associativity) : py_scope.
Notation "m ;; k" := (bind m (fun _ => k))
  (at level 100, right associativity) : py_scope.
Local Open Scope py_scope.

(** Statements run in sequence over a list, as a [for] loop does. *)
Fixpoint for_each {S A} (f : A -> M S unit) (l : list A) : M S unit :=
  match l with
  | [] => ret tt
  | a :: l' => f a ;; for_each f l'
  end.

(** ** Stand-ins for the built-in conversions

    The examples at the end of the file need some [float] and [int]; a
    float is kept as its text, and [int] reads unsigned decimal numerals,
    which is all the examples feed it. *)

Fixpoint read_digits (acc : Z) (s : string) : option Z :=
  match s with
  | EmptyString => Some acc
  | String c r =>
      let n := nat_of_ascii c in
      if (48 <=? n)%nat && (n <=? 57)%nat
      then read_digits (10 * acc + Z.of_nat (n - 48)) r
      else None
  end.

Definition read_decimal (s : string) : option Z :=
  match s with
  | EmptyString => None
  | _ => read_digits 0 s
  end.

Definition keep_text (s : string) : option string := Some s.


(** ** The assistant *)

Section Assistant.

Set Default Proof Using "Type".

(** [float] and the two conversions applied to environment strings are
    Python built-ins; the embedding takes them as given.  [py_float] and
    [py_int] answer [None] where the built-in raises [ValueError];
    [float_str] is [str] on a float. *)
Variable F : Type.
Variable py_float : string -> option F.
Variable py_int : string -> option Z.
Variable float_str : F -> string.

(** *** Objects *)

(** Severity of a log record, [logging.DEBUG < INFO < ERROR]. *)
Inductive level := DEBUG | INFO | ERROR.

(** One element of [self.history]: the dict with keys ["role"], ["text"]
    and ["timestamp"]. *)
Record entry := mkEntry { role : string; text : string; timestamp : string }.

(** The [ElevenLabs] client object. *)
Inductive Client := ElevenLabs (api_key : option string).

(** The bound methods handed to the SDK as callbacks. *)
Inductive method :=
| Agent_response_callback
| User_transcript_callback
| Correction_callback
| Latency_callback.

(** The closure registered as a client tool. *)
Inductive tool := Log_message.

(** A [ClientTools] registry: names with their handlers, in registration
    order. *)
Definition ClientTools := list (string * tool).

(** The keyword arguments of the [Conversation(...)] call of [start];
    [audio_interface] is always a fresh [DefaultAudioInterface()]. *)
Record ConversationArgs := mkArgs {
  arg_client : Client;
  arg_agent_id : string;
  arg_requires_auth : bool;
  arg_callback_agent_response : method;
  arg_callback_user_transcript : method;
  arg_callback_agent_response_correction : method;
  arg_callback_latency_measurement : method;
  arg_volume : F;
  arg_client_tools : ClientTools
}.

(** The [Conversation] object, identified with what it was built from. *)
Inductive Conversation := ConversationObj (args : ConversationArgs).

(** The attributes of a [VoiceAssistant] instance. *)
Record VoiceAssistant := mkVoiceAssistant {
  agent_id : string;
  api_key : option string;
  volume : F;
  timeout : Z;
  conversation : option Conversation;
  client : Client;
  history : list entry;
  start_time : option datetime
}.

(** *** The SDK as an oracle *)

(** What the SDK can deliver to the process while a session runs. *)
Inductive event :=
| AgentResponse (response : string)
| UserTranscript (transcript : string)
| ResponseCorrection (original corrected : string)
| LatencyMeasurement (latency : F)
| ToolCall (name : string) (parameters : gmap string string)
| SIGINT.

(** One run of the SDK: for each of its calls, whether it raises, and the
    events that arrive between [start_session] and the return of
    [wait_for_session_end]. *)
Record Collaborator := mkCollaborator {
  conversation_raises : option exn;
  start_session_raises : option exn;
  events : list event;
  wait_for_session_end_result : exn + string;
  end_session_raises : option exn
}.

(** The calls the SDK received. *)
Inductive sdk_call :=
| New_ElevenLabs (k : option string)
| New_Conversation (args : ConversationArgs)
| Start_session
| Wait_for_session_end
| End_session.

(** *** The world outside the object *)

Record World := mkWorld {
  environ : gmap string string;      (* os.environ *)
  dotenv : gmap string string;       (* the bindings of the .env file *)
  dirs : gset string;                (* directories, relative to the cwd *)
  files : gmap string json;          (* regular files and their contents *)
  log : list (level * string);       (* records the root handler emitted *)
  clock : nat -> datetime;           (* successive readings of the clock *)
  ticks : nat;                       (* readings taken so far *)
  sigint_handler : bool;             (* handle_interrupt installed *)
  sdk : list sdk_call;               (* calls made to the SDK, oldest first *)
  script : Collaborator
}.

Definition set_environ (f : gmap string string -> gmap string string) (w : World) :=
  mkWorld (f (environ w)) (dotenv w) (dirs w) (files w) (log w) (clock w)
          (ticks w) (sigint_handler w) (sdk w) (script w).
Definition set_dirs (f : gset string -> gset string) (w : World) :=
  mkWorld (environ w) (dotenv w) (f (dirs w)) (files w) (log w) (clock w)
          (ticks w) (sigint_handler w) (sdk w) (script w).
Definition set_files (f : gmap string json -> gmap string json) (w : World) :=
  mkWorld (environ w) (dotenv w) (dirs w) (f (files w)) (log w) (clock w)
          (ticks w) (sigint_handler w) (sdk w) (script w).
Definition set_log (f : list (level * string) -> list (level * string)) (w : World) :=
  mkWorld (environ w) (dotenv w) (dirs w) (files w) (f (log w)) (clock w)
          (ticks w) (sigint_handler w) (sdk w) (script w).
Definition set_ticks (f : nat -> nat) (w : World) :=
  mkWorld (environ w) (dotenv w) (dirs w) (files w) (log w) (clock w)
          (f (ticks w)) (sigint_handler w) (sdk w) (script w).
Definition set_sigint_handler (b : bool) (w : World) :=
  mkWorld (environ w) (dotenv w) (dirs w) (files w) (log w) (clock w)
          (ticks w) b (sdk w) (script w).
Definition set_sdk (f : list sdk_call -> list sdk_call) (w : World) :=
  mkWorld (environ w) (dotenv w) (dirs w) (files w) (log w) (clock w)
          (ticks w) (sigint_handler w) (f (sdk w)) (script w).

(** [load_dotenv()]: bindings of the [.env] file enter the environment
    unless the variable is already set. *)
Definition load_dotenv : M World unit :=
  modify (fun w => set_environ (fun e => e ∪ dotenv w) w).

(** [os.getenv(key)] and [os.getenv(key, default)] *)
Definition getenv (key : string) : M World (option string) :=
  w <- get ;; ret (environ w !! key).
Definition getenv_default (key dflt : string) : M World string :=
  v <- getenv key ;; ret (default dflt v).

(** [datetime.now()] *)
Definition now : M World datetime :=
  w <- get ;; modify (set_ticks S) ;; ret (clock w (ticks w)).

(** The module logger under [basicConfig(level=logging.INFO)]: records
    below [INFO] are dropped, the others reach the handler. *)
Definition enabled (l : level) : bool :=
  match l with DEBUG => false | INFO | ERROR => true end.
Definition emit (l : level) (msg : string) : M World unit :=
  if enabled l then modify (set_log (fun r => (r ++ [(l, msg)])%list)) else ret tt.
Definition logger_info := emit INFO.
Definition logger_debug := emit DEBUG.
Definition logger_error := emit ERROR.

(** [Path(p).mkdir(exist_ok=True)] for a [p] directly under the working
    directory: nothing to do when [p] is a directory, [FileExistsError] when
    it is a regular file. *)
Definition mkdir_exist_ok (p : string) : M World unit :=
  w <- get ;;
  if decide (p ∈ dirs w) then ret tt
  else if decide (is_Some (files w !! p)) then
    raise (mkExn "FileExistsError" ("[Errno 17] File exists: '" ++ p ++ "'"))
  else modify (set_dirs (fun d => {[ p ]} ∪ d)).

(** [open(p, "w")]: the directory of [p] has to exist and [p] must not be a
    directory.  The file is created or truncated here and filled by the
    [json.dump] that follows; nothing in between can raise, so the
    embedding writes the file once, in [json_dump]. *)
Definition open_w (p : string) : M World unit :=
  w <- get ;;
  let d := dirname p in
  if decide (d = "" ∨ d ∈ dirs w) then
    if decide (p ∈ dirs w) then
      raise (mkExn "IsADirectoryError" ("[Errno 21] Is a directory: '" ++ p ++ "'"))
    else ret tt
  else if decide (is_Some (files w !! d)) then
    raise (mkExn "NotADirectoryError" ("[Errno 20] Not a directory: '" ++ p ++ "'"))
  else
    raise (mkExn "FileNotFoundError"
                 ("[Errno 2] No such file or directory: '" ++ p ++ "'")).

Definition json_dump (obj : json) (p : string) : M World unit :=
  modify (set_files (fun f => <[ p := obj ]> f)).

(** A call into the SDK: it is recorded, then raises if the script says so. *)
Definition sdk_do (c : sdk_call) (raises : Collaborator -> option exn) : M World unit :=
  modify (set_sdk (fun l => (l ++ [c])%list)) ;;
  w <- get ;;
  match raises (script w) with
  | Some e => raise e
  | None => ret tt
  end.

(** *** Truth values *)

(** [bool(x)] for an optional string: [None] and [""] are false. *)
Definition truthy (x : option string) : bool :=
  match x with
  | None => false
  | Some s => negb (String.eqb s "")
  end.

(** *** The object and the world together *)

Record Sys := mkSys { self : VoiceAssistant; world : World }.

Definition in_world {A} (m : M World A) : M Sys A :=
  fun s => let (r, w) := m (world s) in (r, mkSys (self s) w).

Definition get_self : M Sys VoiceAssistant := fun s => (Ok (self s), s).

(** Attribute assignment. *)
Definition with_conversation (c : option Conversation) (a : VoiceAssistant) :=
  mkVoiceAssistant (agent_id a) (api_key a) (volume a) (timeout a) c
                   (client a) (history a) (start_time a).
Definition with_start_time (t : option datetime) (a : VoiceAssistant) :=
  mkVoiceAssistant (agent_id a) (api_key a) (volume a) (timeout a)
                   (conversation a) (client a) (history a) t.
Definition with_history (h : list entry) (a : VoiceAssistant) :=
  mkVoiceAssistant (agent_id a) (api_key a) (volume a) (timeout a)
                   (conversation a) (client a) h (start_time a).

Definition set_self (f : VoiceAssistant -> VoiceAssistant) : M Sys unit :=
  modify (fun s => mkSys (f (self s)) (world s)).

Definition set_conversation (c : option Conversation) : M Sys unit :=
  set_self (with_conversation c).
Definition set_start_time (t : option datetime) : M Sys unit :=
  set_self (with_start_time t).
(** [self.history.append(e)] *)
Definition history_append (e : entry) : M Sys unit :=
  set_self (fun a => with_history (history a ++ [e])%list a).

(** *** [VoiceAssistant.__init__] (lines 34-53) *)

Definition __init__ : M World VoiceAssistant :=
  load_dotenv ;;
  agent_id <- getenv "AGENT_ID" ;;
  api_key <- getenv "ELEVENLABS_API_KEY" ;;
  if negb (truthy agent_id) then
    raise (mkExn "ValueError" "AGENT_ID environment variable is required")
  else
    v <- getenv_default "VOLUME" "1.0" ;;
    match py_float v with
    | None => raise (mkExn "ValueError"
                       ("could not convert string to float: '" ++ v ++ "'"))
    | Some volume =>
        t <- getenv_default "TIMEOUT" "300" ;;
        match py_int t with
        | None => raise (mkExn "ValueError"
                           ("invalid literal for int() with base 10: '" ++ t ++ "'"))
        | Some timeout =>
            sdk_do (New_ElevenLabs api_key) (fun _ => None) ;;
            ret (mkVoiceAssistant (default "" agent_id) api_key volume timeout
                   None (ElevenLabs api_key) [] None)
        end
    end.

(** *** [save_conversation] (lines 55-78) *)

Definition entry_json (e : entry) : json :=
  JObject [("role", JString (role e)); ("text", JString (text e));
           ("timestamp", JString (timestamp e))].

Definition transcript_json (a : VoiceAssistant) (end_time : datetime) : json :=
  JObject [("start_time",
             match start_time a with
             | Some t => JString (isoformat t)
             | None => JNull
             end);
           ("end_time", JString (isoformat end_time));
           ("history", JArray (map entry_json (history a)))].

(** The name built on lines 68-69 from the reading [t] of the clock. *)
Definition default_path (t : datetime) : string :=
  "logs/conversation_" ++ strftime_Ymd_HMS t ++ ".json".

Definition save_conversation (filename : option string) : M Sys unit :=
  a <- get_self ;;
  match history a with
  | [] => ret tt
  | _ :: _ =>
      filename <-
        match filename with
        | None =>
            in_world (mkdir_exist_ok "logs") ;;
            t <- in_world now ;;
            ret (default_path t)
        | Some f => ret f
        end ;;
      in_world (open_w filename) ;;
      a <- get_self ;;
      t <- in_world now ;;
      in_world (json_dump (transcript_json a t) filename) ;;
      in_world (logger_info ("Conversation saved to " ++ filename))
  end.

(** *** The callbacks (lines 80-110) *)

Definition agent_response_callback (response : string) : M Sys unit :=
  t <- in_world now ;;
  history_append (mkEntry "agent" response (isoformat t)) ;;
  in_world (logger_info ("Agent: " ++ response)).

Definition user_transcript_callback (transcript : string) : M Sys unit :=
  t <- in_world now ;;
  history_append (mkEntry "user" transcript (isoformat t)) ;;
  in_world (logger_info ("User: " ++ transcript)).

Definition correction_callback (original corrected : string) : M Sys unit :=
  in_world (logger_info ("Correction: '" ++ original ++ "' → '" ++ corrected ++ "'")).

Definition latency_callback (latency : F) : M Sys unit :=
  in_world (logger_debug ("Latency: " ++ float_str latency ++ "ms")).

(** [conversation.end_session()] *)
Definition end_session : M Sys unit :=
  in_world (sdk_do End_session end_session_raises).

Definition handle_interrupt : M Sys unit :=
  in_world (logger_info "
Received interrupt signal. Ending conversation...") ;;
  a <- get_self ;;
  match conversation a with
  | Some _ => end_session
  | None => ret tt
  end.

(** *** [setup_client_tools] (lines 112-132) *)

Definition log_message (parameters : gmap string string) : M Sys unit :=
  let message := parameters !! "message" in
  if truthy message then
    in_world (logger_info ("AI Tool Call - Log Message: " ++ default "" message))
  else ret tt.

Definition run_tool (t : tool) : gmap string string -> M Sys unit :=
  match t with Log_message => log_message end.

Definition setup_client_tools : M Sys ClientTools :=
  ret [("logMessage", Log_message)].

(** *** The session as the SDK drives it *)

(** The registry lookup the SDK performs for a tool call. *)
Fixpoint find_tool (name : string) (r : ClientTools) : option tool :=
  match r with
  | [] => None
  | (n, t) :: r' => if String.eqb n name then Some t else find_tool name r'
  end.

(** One event reaching the process.  The SDK calls the method registered
    for the kind of event (lines 151-154 register each under its own
    keyword), looks a tool up in the registry it was given, and a SIGINT
    runs the installed handler. *)
Definition deliver (ev : event) : M Sys unit :=
  match ev with
  | AgentResponse r => agent_response_callback r
  | UserTranscript t => user_transcript_callback t
  | ResponseCorrection o c => correction_callback o c
  | LatencyMeasurement l => latency_callback l
  | ToolCall name parameters =>
      a <- get_self ;;
      match conversation a with
      | Some (ConversationObj args) =>
          match find_tool name (arg_client_tools args) with
          | Some t => run_tool t parameters
          | None => ret tt
          end
      | None => ret tt
      end
  | SIGINT => handle_interrupt
  end.

(** [Conversation(...)] *)
Definition new_Conversation (args : ConversationArgs) : M Sys Conversation :=
  in_world (sdk_do (New_Conversation args) conversation_raises) ;;
  ret (ConversationObj args).

(** [conversation.start_session()] *)
Definition start_session : M Sys unit :=
  in_world (sdk_do Start_session start_session_raises).

(** [conversation.wait_for_session_end()]: blocks while the events of the
    session arrive, then returns the conversation id or raises. *)
Definition wait_for_session_end : M Sys string :=
  in_world (sdk_do Wait_for_session_end (fun _ => None)) ;;
  s <- get ;;
  for_each deliver (events (script (world s))) ;;
  match wait_for_session_end_result (script (world s)) with
  | inl e => raise e
  | inr id => ret id
  end.

(** *** [start] (lines 134-174) and [main] (lines 176-185) *)

(** The [except Exception as e] clause of [start] (lines 169-174). *)
Definition start_except (e : exn) : M Sys unit :=
  in_world (logger_error ("Error during conversation: " ++ exn_str e)) ;;
  a <- get_self ;;
  match conversation a with
  | Some _ => end_session
  | None => ret tt
  end ;;
  save_conversation (Some "logs/conversation_error.json") ;;
  sys_exit 1.

Definition start : M Sys unit :=
  try_except
    (in_world (modify (set_sigint_handler true)) ;;
     t <- in_world now ;;
     set_start_time (Some t) ;;
     client_tools <- setup_client_tools ;;
     a <- get_self ;;
     c <- new_Conversation
            (mkArgs (client a) (agent_id a) (truthy (api_key a))
                    Agent_response_callback User_transcript_callback
                    Correction_callback Latency_callback
                    (volume a) client_tools) ;;
     set_conversation (Some c) ;;
     in_world (logger_info "Starting conversation. Press Ctrl+C to end.") ;;
     start_session ;;
     conversation_id <- wait_for_session_end ;;
     in_world (logger_info ("Conversation ended. ID: " ++ conversation_id)) ;;
     save_conversation None)
    start_except.

(** [main]: the result pairs what the interpreter does with the final
    world; the assistant object, when one was built, is returned too. *)
Definition main (w : World) : result unit * option VoiceAssistant * World :=
  match __init__ w with
  | (Ok a, w1) =>
      match start (mkSys a w1) with
      | (Raise e, s) =>
          match logger_error ("Application error: " ++ exn_str e) (world s) with
          | (_, w2) => (Exit 1, Some (self s), w2)
          end
      | (r, s) => (r, Some (self s), world s)
      end
  | (Raise e, w1) =>
      match logger_error ("Application error: " ++ exn_str e) w1 with
      | (_, w2) => (Exit 1, None, w2)
      end
  | (Exit c, w1) => (Exit c, None, w1)
  end.

(** The exit status of the process. *)
Definition exit_status {A} (r : result A) : Z :=
  match r with
  | Ok _ => 0
  | Exit c => c
  | Raise _ => 1
  end.

(** *** Inputs for the examples *)

(** A clock that reads 10:00:30, 10:01:30, ... on 15 January 2024. *)
Definition demo_clock (n : nat) : datetime :=
  mkDatetime 2024 1 15 10 (n mod 60) 30 0.

(** The session of the scenario: the user says hello, the agent answers. *)
Definition hello_events : list event :=
  [UserTranscript "hello"; AgentResponse "hi there"].

(** The SDK reports a normal end. *)
Definition normal_end : Collaborator :=
  mkCollaborator None None hello_events (inr "conv_1") None.

(** A session in which nothing is said; it is interrupted and ends. *)
Definition silent_session : Collaborator :=
  mkCollaborator None None [SIGINT] (inr "conv_2") None.

(** The SDK raises while streaming, after the two entries. *)
Definition streaming_error : Collaborator :=
  mkCollaborator None None hello_events
    (inl (mkExn "ConnectionError" "connection lost")) None.

(** Scripts of the SDK for the failure cases. *)
Definition constructor_raises : Collaborator :=
  mkCollaborator (Some (mkExn "TypeError" "unexpected keyword"))
    None [] (inr "conv_3") None.

Definition start_session_raises_script : Collaborator :=
  mkCollaborator None (Some (mkExn "OSError" "no microphone"))
    [] (inr "conv_4") None.

Definition end_session_raises_script : Collaborator :=
  mkCollaborator None None hello_events
    (inl (mkExn "ConnectionError" "connection lost"))
    (Some (mkExn "RuntimeError" "already closed")).

(** The user speaks, then the operator presses Ctrl+C. *)
Definition interrupted_session : Collaborator :=
  mkCollaborator None None [UserTranscript "hello"; SIGINT] (inr "conv_5") None.

(** A fresh process: only the given variables set, no [.env] file, an empty
    working directory apart from the directories [ds]. *)
Definition demo_world (env : gmap string string) (ds : gset string)
    (sc : Collaborator) : World :=
  mkWorld env ∅ ds ∅ [] demo_clock 0 false [] sc.

Definition demo_env : gmap string string := {[ "AGENT_ID" := "abc123" ]}.

(** The object [__init__] builds in that environment, at volume [v]. *)
Definition demo_assistant (v : F) : VoiceAssistant :=
  mkVoiceAssistant "abc123" None v 300 None (ElevenLabs None) [] None.


(** The same object with one user entry recorded. *)
Definition one_entry (v : F) : VoiceAssistant :=
  with_history [mkEntry "user" "hello" "2024-01-15T10:01:30"]
    (demo_assistant v).

(** *** What the claims speak about *)

(** The [(role, text)] pair the spec expects for a callback invocation;
    events that are not agent responses or user transcripts have none. *)
Definition expected_turn (ev : event) : option (string * string) :=
  match ev with
  | AgentResponse t => Some ("agent", t)
  | UserTranscript t => Some ("user", t)
  | _ => None
  end.

Definition turns (evs : list event) : list (string * string) :=
  omap expected_turn evs.

(** The entries a run of events appends when the clock [c] has been read
    [n] times before. *)
Fixpoint turn_entries (c : nat -> datetime) (n : nat) (evs : list event)
  : list entry :=
  match evs with
  | [] => []
  | AgentResponse t :: l =>
      mkEntry "agent" t (isoformat (c n)) :: turn_entries c (S n) l
  | UserTranscript t :: l =>
      mkEntry "user" t (isoformat (c n)) :: turn_entries c (S n) l
  | _ :: l => turn_entries c n l
  end.

(** Reading a persisted document back. *)
Definition json_member (k : string) (j : json) : option json :=
  match j with
  | JObject kvs => snd <$> List.find (fun kv => String.eqb (fst kv) k) kvs
  | _ => None
  end.

Definition json_role_text (j : json) : option (string * string) :=
  match json_member "role" j, json_member "text" j with
  | Some (JString r), Some (JString t) => Some (r, t)
  | _, _ => None
  end.

(** The object while the session runs: [start] has set the start time
    [t] and built the conversation. *)
Definition in_session (t : datetime) (a : VoiceAssistant) : VoiceAssistant :=
  with_conversation
    (Some (ConversationObj
             (mkArgs (client a) (agent_id a) (truthy (api_key a))
                     Agent_response_callback User_transcript_callback
                     Correction_callback Latency_callback
                     (volume a) [("logMessage", Log_message)])))
    (with_start_time (Some t) a).

(** The file [save_conversation fn] writes when the clock reads [t]. *)
Definition target (fn : option string) (t : datetime) : string :=
  match fn with
  | Some f => f
  | None => default_path t
  end.

(** The path the spec names for a session started at [t]. *)
Definition spec_path (t : datetime) : string :=
  "logs/" ++ strftime_Ymd_HMS t ++ ".json".

(** [s'] differs from [s] by the entries [es] appended to the history and
    as many clock readings; the file system is as it was. *)
Definition appended (es : list entry) (s s' : Sys) : Prop :=
  self s' = with_history (history (self s) ++ es)%list (self s) ∧
  dirs (world s') = dirs (world s) ∧
  files (world s') = files (world s) ∧
  clock (world s') = clock (world s) ∧
  script (world s') = script (world s) ∧
  ticks (world s') = (ticks (world s) + length es)%nat.

(** [s'] is [s] after the transcript was written to [f] with end time
    [t]: one more file, one more log line. *)
Definition saved (f : string) (t : datetime) (s s' : Sys) : Prop :=
  self s' = self s ∧
  files (world s') = <[ f := transcript_json (self s) t ]> (files (world s)) ∧
  log (world s') =
    (log (world s) ++ [(INFO, ("Conversation saved to " ++ f)%string)])%list ∧
  sdk (world s') = sdk (world s).

(** The state in which the session ends, before anything is saved: the
    entries of the delivered events are in the history, the file system is
    untouched. *)
Definition session_over (a : VoiceAssistant) (w : World) (s : Sys) : Prop :=
  let es := turn_entries (clock w) (S (ticks w)) (events (script w)) in
  self s = with_history (history a ++ es)%list
             (in_session (clock w (ticks w)) a) ∧
  dirs (world s) = dirs w ∧
  files (world s) = files w ∧
  clock (world s) = clock w ∧
  script (world s) = script w ∧
  ticks (world s) = (S (ticks w) + length es)%nat.

(** [s'] has the history and the file system of [s]. *)
Definition untouched (s s' : Sys) : Prop :=
  history (self s') = history (self s) ∧
  files (world s') = files (world s) ∧
  dirs (world s') = dirs (world s).

Definition with_timeout (t : Z) (a : VoiceAssistant) :=
  mkVoiceAssistant (agent_id a) (api_key a) (volume a) t
                   (conversation a) (client a) (history a) (start_time a).

(** The same state with another value in [self.timeout]. *)
Definition retimed (t : Z) (s : Sys) : Sys :=
  mkSys (with_timeout t (self s)) (world s).

(** [m] runs the same whatever [self.timeout] holds, and leaves it alone. *)
Definition ignores_timeout {A} (m : M Sys A) : Prop :=
  forall t s, m (retimed t s) = (fst (m s), retimed t (snd (m s))).

(** [s'] can come after [s]: whatever [s] has recorded (entries, log
    records, calls to the SDK, clock readings, directories, files) is
    still there in [s'], in the same order. *)
Definition grows (s s' : Sys) : Prop :=
  history (self s) `prefix_of` history (self s') ∧
  log (world s) `prefix_of` log (world s') ∧
  sdk (world s) `prefix_of` sdk (world s') ∧
  (ticks (world s) <= ticks (world s'))%nat ∧
  dirs (world s) ⊆ dirs (world s') ∧
  dom (files (world s)) ⊆ dom (files (world s')).

(** Every run of [m] ends in a state related to the initial one. *)
Definition steps {A} (R : Sys -> Sys -> Prop) (m : M Sys A) : Prop :=
  forall s, R s (snd (m s)).


(** What event delivery leaves alone. *)
Definition same_session (s s' : Sys) : Prop :=
  files (world s') = files (world s) ∧
  dirs (world s') = dirs (world s) ∧
  conversation (self s') = conversation (self s) ∧
  script (world s') = script (world s).

(** [s'] has the start time of [s]. *)
Definition same_start_time (s s' : Sys) : Prop :=
  start_time (self s') = start_time (self s).

(** ** Proofs *)

(** *** Paths *)

Lemma dirname_aux_app_None (a b : string) :
  dirname_aux a = None -> dirname_aux b = None -> dirname_aux (a ++ b) = None.
Proof.
  induction a as [|c a IH]; simpl; intros Ha Hb; [exact Hb|].
  destruct (dirname_aux a) eqn:Ea; [discriminate|].
  rewrite (IH eq_refl Hb).
  destruct (Ascii.eqb c "/"); [discriminate|reflexivity].
Qed.

Lemma digit_not_slash (n : nat) : Ascii.eqb (digit n) "/" = false.
Proof.
  unfold digit.
  assert (H : (n mod 10 < 10)%nat) by (apply Nat.mod_upper_bound; lia).
  generalize dependent (n mod 10)%nat. intros k H.
  do 10 (destruct k as [|k]; [reflexivity|]); lia.
Qed.

Lemma digits_no_slash (w n : nat) : dirname_aux (digits w n) = None.
Proof.
  revert n; induction w as [|w IH]; intros n; [reflexivity|].
  change (digits (S w) n) with (digits w (n / 10) ++ String (digit n) "").
  apply dirname_aux_app_None; [apply IH|].
  change (dirname_aux (String (digit n) ""))
    with (if Ascii.eqb (digit n) "/" then Some EmptyString else None).
  now rewrite digit_not_slash.
Qed.

Lemma strftime_no_slash (t : datetime) :
  dirname_aux (strftime_Ymd_HMS t) = None.
Proof.
  unfold strftime_Ymd_HMS.
  repeat (apply dirname_aux_app_None;
          [first [apply digits_no_slash | reflexivity]|]).
  apply digits_no_slash.
Qed.

Lemma dirname_aux_slash (a b : string) :
  dirname_aux a = None -> dirname_aux b = None ->
  dirname_aux (a ++ String "/" b) = Some a.
Proof.
  intros Ha Hb. induction a as [|c a IH].
  - change (dirname_aux (String "/" b) = Some "").
    cbn [dirname_aux]. now rewrite Hb.
  - change (dirname_aux (String c (a ++ String "/" b)) = Some (String c a)).
    cbn [dirname_aux] in *.
    destruct (dirname_aux a) eqn:Ea; [discriminate|].
    now rewrite (IH eq_refl).
Qed.

Lemma dirname_under_logs (a b c : string) :
  dirname_aux a = None -> dirname_aux b = None -> dirname_aux c = None ->
  dirname ("logs/" ++ a ++ b ++ c) = "logs".
Proof.
  intros Ha Hb Hc. unfold dirname.
  change ("logs/" ++ a ++ b ++ c) with ("logs" ++ String "/" (a ++ b ++ c)).
  rewrite dirname_aux_slash; [reflexivity | reflexivity |].
  now repeat apply dirname_aux_app_None.
Qed.

Lemma dirname_default_path (t : datetime) : dirname (default_path t) = "logs".
Proof.
  apply (dirname_under_logs "conversation_" (strftime_Ymd_HMS t) ".json");
    [reflexivity | apply strftime_no_slash | reflexivity].
Qed.

(** *** Running statements *)

Lemma bind_Ok {S A B} (m : M S A) (k : A -> M S B) s a s' :
  m s = (Ok a, s') -> bind m k s = k a s'.
Proof. unfold bind. now intros ->. Qed.

Lemma bind_Raise {S A B} (m : M S A) (k : A -> M S B) s e s' :
  m s = (Raise e, s') -> bind m k s = (Raise e, s').
Proof. unfold bind. now intros ->. Qed.

Lemma try_except_Ok {S A} (m : M S A) h s a s' :
  m s = (Ok a, s') -> try_except m h s = (Ok a, s').
Proof. unfold try_except. now intros ->. Qed.

Lemma try_except_Raise {S A} (m : M S A) h s e s' :
  m s = (Raise e, s') -> try_except m h s = h e s'.
Proof. unfold try_except. now intros ->. Qed.

(** *** The history under events *)

Lemma with_history_same (a : VoiceAssistant) :
  with_history (history a ++ [])%list a = a.
Proof. destruct a; unfold with_history; simpl. now rewrite app_nil_r. Qed.

Lemma appended_refl (s : Sys) : appended [] s s.
Proof.
  unfold appended. rewrite with_history_same. simpl.
  repeat split; lia.
Qed.

Lemma appended_trans (es1 es2 : list entry) (s s1 s2 : Sys) :
  appended es1 s s1 -> appended es2 s1 s2 -> appended (es1 ++ es2)%list s s2.
Proof.
  unfold appended.
  intros (Ha & Hd & Hf & Hc & Hs & Ht) (Ha' & Hd' & Hf' & Hc' & Hs' & Ht').
  repeat split; try congruence.
  - rewrite Ha', Ha. destruct (self s); unfold with_history; simpl.
    now rewrite app_assoc.
  - rewrite Ht', Ht, length_app. lia.
Qed.

Lemma turn_entries_cons c n (ev : event) (l : list event) :
  turn_entries c n (ev :: l) =
  (turn_entries c n [ev] ++
   turn_entries c (n + length (turn_entries c n [ev])) l)%list.
Proof.
  destruct ev; simpl; rewrite ?Nat.add_0_r, ?Nat.add_1_r; reflexivity.
Qed.

(** A log line changes neither the object nor what [appended] observes. *)
Lemma logged_appended (a : VoiceAssistant) (w : World) f :
  appended [] (mkSys a w) (mkSys a (set_log f w)).
Proof.
  unfold appended; simpl. rewrite with_history_same.
  repeat split; lia.
Qed.

Lemma deliver_appended (ev : event) (s : Sys) :
  end_session_raises (script (world s)) = None ->
  exists s', deliver ev s = (Ok tt, s') /\
             appended (turn_entries (clock (world s)) (ticks (world s)) [ev]) s s'.
Proof.
  destruct s as [a w]; simpl; intros Hend.
  destruct ev as [r|t|o c|l|name ps|]; simpl.
  - eexists; split; [reflexivity|].
    unfold appended; simpl. repeat split; lia.
  - eexists; split; [reflexivity|].
    unfold appended; simpl. repeat split; lia.
  - eexists; split; [reflexivity|]. apply logged_appended.
  - eexists; split; [reflexivity|]. apply appended_refl.
  - unfold deliver, bind, get_self; simpl.
    destruct (conversation a) as [[args]|];
      [|eexists; split; [reflexivity|apply appended_refl]].
    destruct (find_tool name (arg_client_tools args)) as [[]|];
      [|eexists; split; [reflexivity|apply appended_refl]].
    unfold run_tool, log_message.
    destruct (truthy (ps !! "message"));
      eexists; (split; [reflexivity|]);
      [apply logged_appended|apply appended_refl].
  - unfold deliver, handle_interrupt, bind, get_self, in_world; simpl.
    destruct (conversation a);
      [|eexists; split; [reflexivity|apply logged_appended]].
    unfold end_session, in_world, sdk_do, bind; simpl. rewrite Hend.
    eexists; split; [reflexivity|].
    unfold appended; simpl. rewrite with_history_same.
    repeat split; lia.
Qed.

Lemma events_appended (evs : list event) (s : Sys) :
  end_session_raises (script (world s)) = None ->
  exists s', for_each deliver evs s = (Ok tt, s') /\
             appended (turn_entries (clock (world s)) (ticks (world s)) evs) s s'.
Proof.
  revert s; induction evs as [|ev evs IH]; intros s Hend.
  - exists s; split; [reflexivity|apply appended_refl].
  - destruct (deliver_appended ev s Hend) as (s1 & Hrun1 & Happ1).
    assert (Hend1 : end_session_raises (script (world s1)) = None).
    { destruct Happ1 as (_ & _ & _ & _ & Hs & _). now rewrite Hs. }
    destruct (IH s1 Hend1) as (s2 & Hrun2 & Happ2).
    exists s2; split.
    + cbn [for_each]. now rewrite (bind_Ok _ _ _ _ _ Hrun1).
    + rewrite turn_entries_cons.
      apply (appended_trans _ _ _ s1); [exact Happ1|].
      destruct Happ1 as (_ & _ & _ & Hc & _ & Ht).
      now rewrite Hc, Ht in Happ2.
Qed.

(** *** Saving *)

(** Reduction of record projections and monad plumbing only: the finite
    maps and sets under them stay folded. *)
Ltac sys_simpl :=
  unfold set_conversation, set_start_time, history_append, set_self,
         logger_info, logger_debug, logger_error, emit, now, json_dump,
         get_self, in_world, bind, ret, get, modify, raise, sys_exit;
  cbn [fst snd self world environ dotenv dirs files log clock ticks
       sigint_handler sdk script set_environ set_dirs set_files set_log
       set_ticks set_sigint_handler set_sdk agent_id api_key volume timeout
       conversation client history start_time with_conversation
       with_start_time with_history enabled exn_class exn_str].

Ltac sys_simpl_in H :=
  cbn [fst snd self world environ dotenv dirs files log clock ticks
       sigint_handler sdk script set_environ set_dirs set_files set_log
       set_ticks set_sigint_handler set_sdk agent_id api_key volume timeout
       conversation client history start_time with_conversation
       with_start_time with_history enabled exn_class exn_str] in H.

Lemma save_conversation_empty (fn : option string) (s : Sys) :
  history (self s) = [] -> save_conversation fn s = (Ok tt, s).
Proof.
  intros H. unfold save_conversation, bind, get_self. now rewrite H.
Qed.

Lemma save_conversation_explicit (f : string) (s : Sys) :
  history (self s) <> [] ->
  dirname f = "" ∨ dirname f ∈ dirs (world s) ->
  f ∉ dirs (world s) ->
  exists s', save_conversation (Some f) s = (Ok tt, s') /\
             saved f (clock (world s) (ticks (world s))) s s' /\
             dirs (world s') = dirs (world s) /\
             ticks (world s') = S (ticks (world s)).
Proof.
  destruct s as [a w]; sys_simpl. intros Hh Hdir Hf.
  unfold save_conversation; sys_simpl.
  destruct (history a) as [|e h] eqn:Eh; [congruence|].
  unfold open_w; sys_simpl.
  rewrite (decide_True _ _ Hdir), (decide_False _ _ Hf); sys_simpl.
  eexists; split; [reflexivity|].
  unfold saved; sys_simpl. repeat split.
Qed.

Lemma default_path_not_logs (t : datetime) : default_path t <> "logs".
Proof.
  intros H. pose proof (dirname_default_path t) as D.
  rewrite H in D. discriminate D.
Qed.

Lemma save_conversation_default (s : Sys) :
  let t := clock (world s) (ticks (world s)) in
  history (self s) <> [] ->
  files (world s) !! "logs" = None ->
  default_path t ∉ dirs (world s) ->
  exists s', save_conversation None s = (Ok tt, s') /\
             saved (default_path t) (clock (world s) (S (ticks (world s)))) s s' /\
             dirs (world s') = {[ "logs" ]} ∪ dirs (world s) /\
             ticks (world s') = S (S (ticks (world s))).
Proof.
  destruct s as [a w]; sys_simpl. intros Hh Hlogs Hf.
  unfold save_conversation; sys_simpl.
  destruct (history a) as [|e h] eqn:Eh; [congruence|].
  unfold mkdir_exist_ok; sys_simpl.
  assert (Hnofile : ¬ is_Some (files w !! "logs")).
  { rewrite Hlogs. intros [x Hx]. discriminate Hx. }
  destruct (decide ("logs" ∈ dirs w)) as [Hin|Hnin]; sys_simpl.
  - unfold open_w; sys_simpl.
    rewrite dirname_default_path.
    rewrite (decide_True _ _ (or_intror Hin)), (decide_False _ _ Hf); sys_simpl.
    eexists; split; [reflexivity|].
    unfold saved; sys_simpl. repeat split.
    symmetry. apply subseteq_union_1_L. now apply singleton_subseteq_l.
  - rewrite (decide_False _ _ Hnofile); sys_simpl.
    unfold open_w; sys_simpl.
    rewrite dirname_default_path.
    assert (Hin' : "logs" ∈ ({[ "logs" ]} ∪ dirs w : gset string))
      by (apply elem_of_union_l; now apply elem_of_singleton).
    assert (Hf' : default_path (clock w (ticks w)) ∉
                   ({[ "logs" ]} ∪ dirs w : gset string)).
    { rewrite elem_of_union, elem_of_singleton.
      intros [E|E]; [now apply default_path_not_logs in E | now apply Hf]. }
    rewrite (decide_True _ _ (or_intror Hin')), (decide_False _ _ Hf'); sys_simpl.
    eexists; split; [reflexivity|].
    unfold saved; sys_simpl. repeat split.
Qed.

(** With an explicit file name no directory is ever made, and a missing
    directory makes [open] fail before anything is written. *)
Lemma save_conversation_no_dir (f : string) (s : Sys) :
  history (self s) <> [] ->
  dirname f <> "" ->
  dirname f ∉ dirs (world s) ->
  exists e, save_conversation (Some f) s = (Raise e, s) /\
            (exn_class e = "FileNotFoundError" ∨
             exn_class e = "NotADirectoryError").
Proof.
  destruct s as [a w]; sys_simpl. intros Hh Hne Hnin.
  unfold save_conversation; sys_simpl.
  destruct (history a) as [|e h] eqn:Eh; [congruence|].
  unfold open_w; sys_simpl.
  assert (Hno : ¬ (dirname f = "" ∨ dirname f ∈ dirs w))
    by (intros [E|E]; [exact (Hne E) | exact (Hnin E)]).
  rewrite (decide_False _ _ Hno).
  destruct (decide (is_Some (files w !! dirname f))); sys_simpl;
    eexists; (split; [reflexivity|]); sys_simpl; auto.
Qed.

(** *** A session up to the point where it ends *)

Ltac session_simpl :=
  unfold start, wait_for_session_end, new_Conversation, start_session,
         setup_client_tools, sdk_do, try_except;
  sys_simpl.

Lemma start_normal_end (a : VoiceAssistant) (w : World) (id : string) :
  conversation_raises (script w) = None ->
  start_session_raises (script w) = None ->
  end_session_raises (script w) = None ->
  wait_for_session_end_result (script w) = inr id ->
  exists s, session_over a w s /\
            start (mkSys a w) =
            try_except (save_conversation None) start_except s.
Proof.
  intros Hc Hs He Hw.
  session_simpl. rewrite Hc; sys_simpl. rewrite Hs; sys_simpl.
  rewrite Hw.
  match goal with
  | |- context [for_each deliver ?evs ?s0] =>
      destruct (events_appended evs s0) as (s1 & Hrun & Happ);
        [exact He | rewrite Hrun]
  end.
  destruct Happ as (Ha & Hd & Hf & Hk & Hsc & Ht); sys_simpl.
  eexists; split; [|reflexivity].
  unfold session_over, in_session; sys_simpl.
  repeat split; assumption.
Qed.

Lemma start_streaming_error (a : VoiceAssistant) (w : World) (e : exn) :
  conversation_raises (script w) = None ->
  start_session_raises (script w) = None ->
  end_session_raises (script w) = None ->
  wait_for_session_end_result (script w) = inl e ->
  exists s, session_over a w s /\ start (mkSys a w) = start_except e s.
Proof.
  intros Hc Hs He Hw.
  session_simpl. rewrite Hc; sys_simpl. rewrite Hs; sys_simpl.
  rewrite Hw.
  match goal with
  | |- context [for_each deliver ?evs ?s0] =>
      destruct (events_appended evs s0) as (s1 & Hrun & Happ);
        [exact He | rewrite Hrun]
  end.
  destruct Happ as (Ha & Hd & Hf & Hk & Hsc & Ht); sys_simpl.
  exists s1; split; [|reflexivity].
  unfold session_over, in_session; sys_simpl.
  repeat split; assumption.
Qed.

(** The [except] clause when the session can be ended and the transcript
    written. *)
Lemma start_except_saves (e : exn) (s : Sys) :
  is_Some (conversation (self s)) ->
  end_session_raises (script (world s)) = None ->
  history (self s) <> [] ->
  "logs" ∈ dirs (world s) ->
  "logs/conversation_error.json" ∉ dirs (world s) ->
  exists s', start_except e s = (Exit 1, s') /\
             self s' = self s /\
             files (world s') =
               <[ "logs/conversation_error.json" :=
                    transcript_json (self s) (clock (world s) (ticks (world s))) ]>
                 (files (world s)) /\
             sdk (world s') = (sdk (world s) ++ [End_session])%list.
Proof.
  destruct s as [a w]; sys_simpl. intros [c Hc] He Hh Hin Hf.
  unfold start_except; sys_simpl. rewrite Hc.
  unfold end_session, sdk_do; sys_simpl. rewrite He.
  match goal with
  | |- context [save_conversation (Some ?f) ?s0] =>
      destruct (save_conversation_explicit f s0)
        as (s1 & Hrun & (Hself & Hfiles & _ & Hsdk) & _ & _);
        [exact Hh | right; exact Hin | exact Hf | rewrite Hrun]
  end.
  sys_simpl. eexists; split; [reflexivity|].
  repeat split; assumption.
Qed.

(** *** Reading the transcript back *)

Lemma json_role_text_entry (e : entry) :
  json_role_text (entry_json e) = Some (role e, text e).
Proof. reflexivity. Qed.

Lemma role_text_of_entries c n (evs : list event) :
  map json_role_text (map entry_json (turn_entries c n evs)) =
  map Some (turns evs).
Proof.
  revert n; induction evs as [|ev evs IH]; intros n; [reflexivity|].
  destruct ev; cbn [turn_entries turns omap list_omap expected_turn map];
    try apply IH;
    rewrite json_role_text_entry; cbn [role text];
    f_equal; apply IH.
Qed.

Lemma length_turn_entries c n (evs : list event) :
  length (turn_entries c n evs) = length (turns evs).
Proof.
  revert n; induction evs as [|ev evs IH]; intros n; [reflexivity|].
  destruct ev; cbn [turn_entries turns omap list_omap expected_turn length];
    try apply IH; f_equal; apply IH.
Qed.

Lemma turn_entries_nil c n (evs : list event) :
  turns evs <> [] -> turn_entries c n evs <> [].
Proof.
  intros H E. apply H. apply length_zero_iff_nil.
  rewrite <- (length_turn_entries c n), E. reflexivity.
Qed.

Lemma save_conversation_dirs_explicit (f : string) (s : Sys) :
  dirs (world (snd (save_conversation (Some f) s))) = dirs (world s).
Proof.
  destruct s as [a w]. unfold save_conversation; sys_simpl.
  destruct (history a); [reflexivity|].
  unfold open_w; sys_simpl.
  repeat (match goal with
          | |- context [decide ?P] => destruct (decide P)
          end; sys_simpl); reflexivity.
Qed.

(** *** Sessions in which no entry is recorded *)

Lemma untouched_refl (s : Sys) : untouched s s.
Proof. repeat split. Qed.

Lemma untouched_trans (s1 s2 s3 : Sys) :
  untouched s1 s2 -> untouched s2 s3 -> untouched s1 s3.
Proof.
  intros (H1 & H2 & H3) (H1' & H2' & H3').
  repeat split; congruence.
Qed.

Ltac untouched_now := unfold untouched; sys_simpl; repeat split.

Lemma deliver_untouched (ev : event) (s : Sys) :
  expected_turn ev = None -> untouched s (snd (deliver ev s)).
Proof.
  destruct s as [a w].
  destruct ev as [r|t|o c|l|name ps|]; cbn [expected_turn]; intros H;
    try discriminate H; unfold deliver.
  - unfold correction_callback. untouched_now.
  - unfold latency_callback. untouched_now.
  - sys_simpl.
    destruct (conversation a) as [[args]|]; [|untouched_now].
    destruct (find_tool name (arg_client_tools args)) as [[]|];
      [|untouched_now].
    unfold run_tool, log_message.
    destruct (truthy (ps !! "message")); untouched_now.
  - unfold handle_interrupt; sys_simpl.
    destruct (conversation a); [|untouched_now].
    unfold end_session, sdk_do; sys_simpl.
    destruct (end_session_raises (script w)); untouched_now.
Qed.

Lemma turns_cons_nil (ev : event) (evs : list event) :
  turns (ev :: evs) = [] -> expected_turn ev = None ∧ turns evs = [].
Proof.
  unfold turns; cbn [omap list_omap].
  destruct (expected_turn ev); [discriminate|]. now split.
Qed.

Lemma events_untouched (evs : list event) (s : Sys) :
  turns evs = [] -> untouched s (snd (for_each deliver evs s)).
Proof.
  revert s; induction evs as [|ev evs IH]; intros s H.
  - apply untouched_refl.
  - apply turns_cons_nil in H as [Hev Hevs].
    pose proof (deliver_untouched ev s Hev) as Hd.
    cbn [for_each]. unfold bind.
    destruct (deliver ev s) as [[u|e|c] s1]; cbn [snd] in Hd |- *;
      try exact Hd.
    apply (untouched_trans _ s1); [exact Hd|]. now apply IH.
Qed.

Lemma start_except_untouched (e : exn) (s : Sys) :
  history (self s) = [] -> untouched s (snd (start_except e s)).
Proof.
  destruct s as [a w]; cbn [self]; intros Hh.
  unfold start_except; sys_simpl.
  assert (Hsave : forall w', save_conversation
                    (Some "logs/conversation_error.json") (mkSys a w') =
                    (Ok tt, mkSys a w'))
    by (intros w'; now apply save_conversation_empty).
  destruct (conversation a).
  - unfold end_session, sdk_do; sys_simpl.
    destruct (end_session_raises (script w)); [untouched_now|].
    rewrite Hsave. untouched_now.
  - rewrite Hsave. untouched_now.
Qed.

Lemma start_untouched (a : VoiceAssistant) (w : World) :
  history a = [] ->
  turns (events (script w)) = [] ->
  untouched (mkSys a w) (snd (start (mkSys a w))).
Proof.
  intros Hh Hev. session_simpl.
  destruct (conversation_raises (script w)) as [e|]; sys_simpl.
  { match goal with
    | |- untouched _ (snd (start_except ?e ?s0)) =>
        apply (untouched_trans _ s0);
          [untouched_now | now apply start_except_untouched]
    end. }
  destruct (start_session_raises (script w)) as [e|]; sys_simpl.
  { match goal with
    | |- untouched _ (snd (start_except ?e ?s0)) =>
        apply (untouched_trans _ s0);
          [untouched_now | now apply start_except_untouched]
    end. }
  match goal with
  | |- context [for_each deliver ?evs ?s0] =>
      pose proof (events_untouched evs s0 Hev) as Hu;
      destruct (for_each deliver evs s0) as [r s1]
  end.
  cbn [snd] in Hu. destruct Hu as (Hu1 & Hu2 & Hu3).
  sys_simpl_in Hu1. sys_simpl_in Hu2. sys_simpl_in Hu3.
  assert (Hs1 : untouched (mkSys a w) s1)
    by (unfold untouched; cbn [self world]; repeat split; assumption).
  assert (Hh1 : history (self s1) = []) by (now rewrite Hu1).
  assert (Hexc : forall e, untouched (mkSys a w) (snd (start_except e s1))).
  { intros e. apply (untouched_trans _ s1); [exact Hs1|].
    now apply start_except_untouched. }
  destruct r as [u|e|c]; sys_simpl; [|apply Hexc|exact Hs1].
  destruct (wait_for_session_end_result (script w)) as [e|id]; sys_simpl;
    [apply Hexc|].
  rewrite save_conversation_empty by exact Hh1.
  unfold untouched; sys_simpl; repeat split; assumption.
Qed.

(** *** The stored timeout is never consulted *)

Lemma ignores_ret {A} (x : A) : ignores_timeout (ret x).
Proof. intros t s. reflexivity. Qed.

Lemma ignores_raise {A} (e : exn) : ignores_timeout (raise (A:=A) e).
Proof. intros t s. reflexivity. Qed.

Lemma ignores_sys_exit {A} (c : Z) : ignores_timeout (sys_exit (A:=A) c).
Proof. intros t s. reflexivity. Qed.

Lemma ignores_in_world {A} (m : M World A) : ignores_timeout (in_world m).
Proof.
  intros t s. unfold in_world, retimed; cbn [world self].
  destruct (m (world s)); reflexivity.
Qed.

Lemma ignores_set_self (f : VoiceAssistant -> VoiceAssistant) :
  (forall t a, f (with_timeout t a) = with_timeout t (f a)) ->
  ignores_timeout (set_self f).
Proof.
  intros Hf t s. unfold set_self, modify, retimed; cbn [self world fst snd].
  now rewrite Hf.
Qed.

Lemma ignores_bind {A B} (m : M Sys A) (k : A -> M Sys B) :
  ignores_timeout m -> (forall x, ignores_timeout (k x)) ->
  ignores_timeout (bind m k).
Proof.
  intros Hm Hk t s. unfold bind. rewrite Hm.
  destruct (m s) as [[x|e|c] s1]; cbn [fst snd]; [apply Hk | reflexivity ..].
Qed.

Lemma ignores_bind_self {B} (k : VoiceAssistant -> M Sys B) :
  (forall t a, k (with_timeout t a) = k a) ->
  (forall a, ignores_timeout (k a)) ->
  ignores_timeout (bind get_self k).
Proof.
  intros Heq Hk t s. unfold bind, get_self, retimed at 1; cbn [self].
  rewrite Heq. apply Hk.
Qed.

Lemma ignores_try_except {A} (m : M Sys A) (h : exn -> M Sys A) :
  ignores_timeout m -> (forall e, ignores_timeout (h e)) ->
  ignores_timeout (try_except m h).
Proof.
  intros Hm Hh t s. unfold try_except. rewrite Hm.
  destruct (m s) as [[x|e|c] s1]; cbn [fst snd]; [reflexivity | apply Hh | reflexivity].
Qed.

Lemma ignores_for_each {A} (f : A -> M Sys unit) (l : list A) :
  (forall x, ignores_timeout (f x)) -> ignores_timeout (for_each f l).
Proof.
  intros Hf. induction l as [|x l IH]; cbn [for_each].
  - apply ignores_ret.
  - apply ignores_bind; [apply Hf | intros _; exact IH].
Qed.

Ltac ignores :=
  repeat first
    [ apply ignores_ret | apply ignores_raise | apply ignores_sys_exit
    | apply ignores_in_world
    | apply ignores_set_self; intros; reflexivity
    | apply ignores_bind_self; [intros; reflexivity | intros]
    | apply ignores_bind; [|intros] ].

Lemma ignores_save_conversation (fn : option string) :
  ignores_timeout (save_conversation fn).
Proof.
  unfold save_conversation.
  apply ignores_bind_self; [intros; reflexivity | intros a].
  destruct (history a); [apply ignores_ret|].
  apply ignores_bind; [destruct fn; ignores | intros f; ignores].
Qed.

Lemma ignores_end_session : ignores_timeout end_session.
Proof. apply ignores_in_world. Qed.

Lemma ignores_handle_interrupt : ignores_timeout handle_interrupt.
Proof.
  unfold handle_interrupt.
  apply ignores_bind; [apply ignores_in_world | intros _].
  apply ignores_bind_self; [intros; reflexivity | intros a].
  destruct (conversation a); [apply ignores_end_session | apply ignores_ret].
Qed.

Lemma ignores_deliver (ev : event) : ignores_timeout (deliver ev).
Proof.
  destruct ev as [r|t|o c|l|name ps|]; unfold deliver.
  - unfold agent_response_callback, history_append. ignores.
  - unfold user_transcript_callback, history_append. ignores.
  - apply ignores_in_world.
  - apply ignores_in_world.
  - apply ignores_bind_self; [intros; reflexivity | intros a].
    destruct (conversation a) as [[args]|]; [|apply ignores_ret].
    destruct (find_tool name (arg_client_tools args)) as [[]|];
      [|apply ignores_ret].
    unfold run_tool, log_message.
    destruct (truthy (ps !! "message")); ignores.
  - apply ignores_handle_interrupt.
Qed.

Lemma ignores_start_except (e : exn) : ignores_timeout (start_except e).
Proof.
  unfold start_except.
  apply ignores_bind; [apply ignores_in_world | intros _].
  apply ignores_bind_self; [intros; reflexivity | intros a].
  apply ignores_bind;
    [destruct (conversation a);
       [apply ignores_end_session | apply ignores_ret] | intros _].
  apply ignores_bind; [apply ignores_save_conversation | intros _].
  apply ignores_sys_exit.
Qed.

Lemma ignores_wait_for_session_end : ignores_timeout wait_for_session_end.
Proof.
  unfold wait_for_session_end.
  apply ignores_bind; [apply ignores_in_world | intros _].
  intros t s. unfold bind, get. cbn [world retimed].
  rewrite (ignores_for_each deliver _ ignores_deliver).
  destruct (for_each deliver (events (script (world s))) s) as [[u|e|c] s1];
    cbn [fst snd]; try reflexivity.
  destruct (wait_for_session_end_result (script (world s))); reflexivity.
Qed.

Lemma ignores_start : ignores_timeout start.
Proof.
  unfold start.
  apply ignores_try_except; [|apply ignores_start_except].
  apply ignores_bind; [apply ignores_in_world | intros _].
  apply ignores_bind; [apply ignores_in_world | intros t0].
  apply ignores_bind;
    [apply ignores_set_self; intros; reflexivity | intros _].
  apply ignores_bind; [apply ignores_ret | intros tools].
  apply ignores_bind_self; [intros; reflexivity | intros a].
  apply ignores_bind;
    [unfold new_Conversation; ignores | intros c].
  apply ignores_bind;
    [apply ignores_set_self; intros; reflexivity | intros _].
  apply ignores_bind; [apply ignores_in_world | intros _].
  apply ignores_bind; [apply ignores_in_world | intros _].
  apply ignores_bind; [apply ignores_wait_for_session_end | intros cid].
  apply ignores_bind; [apply ignores_in_world | intros _].
  apply ignores_save_conversation.
Qed.

(** X14. Whatever [self.timeout] holds, [start] does the same: same
    result, same calls to the SDK, same files, same log.  The value read
    from [TIMEOUT] has no effect on a session. *)
Lemma start_ignores_timeout (t : Z) (a : VoiceAssistant) (w : World) :
  fst (start (mkSys (with_timeout t a) w)) = fst (start (mkSys a w)) /\
  world (snd (start (mkSys (with_timeout t a) w))) =
  world (snd (start (mkSys a w))).
Proof.
  pose proof (ignores_start t (mkSys a w)) as H.
  unfold retimed in H; cbn [self world] in H.
  rewrite H. split; reflexivity.
Qed.

(** *** An error while streaming *)

(** X15. When streaming raises after entries were recorded, ending the
    session succeeds and the [logs] directory exists, [start] calls
    [end_session], writes the transcript with exactly the recorded entries
    to [logs/conversation_error.json], replacing what the file held, and
    exits with status 1. *)
Lemma streaming_error_saved (a : VoiceAssistant) (w : World) (e : exn) :
  let es := turn_entries (clock w) (S (ticks w)) (events (script w)) in
  conversation_raises (script w) = None ->
  start_session_raises (script w) = None ->
  end_session_raises (script w) = None ->
  wait_for_session_end_result (script w) = inl e ->
  (history a ++ es)%list <> [] ->
  "logs" ∈ dirs w ->
  "logs/conversation_error.json" ∉ dirs w ->
  exists s' doc,
    start (mkSys a w) = (Exit 1, s') /\
    last (sdk (world s')) = Some End_session /\
    files (world s') !! "logs/conversation_error.json" = Some doc /\
    json_member "history" doc =
      Some (JArray (map entry_json (history a ++ es)%list)).
Proof.
  intros es Hc Hs He Hw Hne Hin Hf.
  destruct (start_streaming_error a w e Hc Hs He Hw) as (s1 & Hover & ->).
  destruct Hover as (Ha & Hd & Hfi & Hk & Hsc & Ht). fold es in Ha.
  assert (Hh : history (self s1) = (history a ++ es)%list)
    by (rewrite Ha; reflexivity).
  destruct (start_except_saves e s1) as (s' & Hrun & _ & Hfiles & Hsdk).
  - rewrite Ha. cbn. eexists; reflexivity.
  - now rewrite Hsc.
  - now rewrite Hh.
  - now rewrite Hd.
  - now rewrite Hd.
  - exists s'. eexists. split; [exact Hrun|]. split; [|split].
    + rewrite Hsdk. apply last_snoc.
    + rewrite Hfiles. apply lookup_insert_eq.
    + unfold transcript_json. rewrite Hh. reflexivity.
Qed.

(** Without the [logs] directory the transcript is lost: [open] raises
    inside the handler, so [start] itself raises and nothing is written. *)
Lemma streaming_error_lost (a : VoiceAssistant) (w : World) (e : exn) :
  let es := turn_entries (clock w) (S (ticks w)) (events (script w)) in
  conversation_raises (script w) = None ->
  start_session_raises (script w) = None ->
  end_session_raises (script w) = None ->
  wait_for_session_end_result (script w) = inl e ->
  (history a ++ es)%list <> [] ->
  "logs" ∉ dirs w ->
  exists e' s',
    start (mkSys a w) = (Raise e', s') /\
    (exn_class e' = "FileNotFoundError" ∨ exn_class e' = "NotADirectoryError") /\
    last (sdk (world s')) = Some End_session /\
    files (world s') = files w /\
    dirs (world s') = dirs w.
Proof.
  intros es Hc Hs He Hw Hne Hnin.
  destruct (start_streaming_error a w e Hc Hs He Hw) as (s1 & Hover & ->).
  destruct Hover as (Ha & Hd & Hfi & Hk & Hsc & Ht). fold es in Ha.
  assert (Hh : history (self s1) = (history a ++ es)%list)
    by (rewrite Ha; reflexivity).
  assert (Hconv : is_Some (conversation (self s1)))
    by (rewrite Ha; cbn; eexists; reflexivity).
  destruct Hconv as [c Hconv].
  destruct s1 as [a1 w1]; cbn [self world] in *.
  unfold start_except; sys_simpl. rewrite Hconv.
  unfold end_session, sdk_do; sys_simpl. rewrite Hsc, He.
  match goal with
  | |- context [save_conversation (Some ?f) ?s0] =>
      destruct (save_conversation_no_dir f s0) as (e' & Hrun & Hclass);
        [cbn [self]; now rewrite Hh | discriminate
        | cbn [world dirs set_sdk set_log]; now rewrite Hd | rewrite Hrun]
  end.
  exists e'. eexists. split; [reflexivity|]. sys_simpl.
  split; [exact Hclass|]. split; [apply last_snoc|]. now split.
Qed.

(** ** The claims *)

(** C1. Whatever sequence of events is delivered, saving afterwards
    persists a [history] array with exactly one entry per agent-response or
    user-transcript invocation, in invocation order, whose role is
    ["agent"] for an agent response and ["user"] for a user transcript and
    whose text is the text passed in.  (The file is the explicit name or
    the default one; the hypotheses say that it can be written.) *)
Theorem history_order_and_fidelity
    (evs : list event) (fn : option string) (s : Sys) :
  let w := world s in
  let path := target fn (clock w (ticks w + length (turns evs))) in
  end_session_raises (script w) = None ->
  history (self s) = [] ->
  turns evs <> [] ->
  match fn with
  | None => files w !! "logs" = None
  | Some f => dirname f = "" ∨ dirname f ∈ dirs w
  end ->
  path ∉ dirs w ->
  exists s' doc h,
    (for_each deliver evs ;; save_conversation fn) s = (Ok tt, s') /\
    files (world s') !! path = Some doc /\
    json_member "history" doc = Some (JArray h) /\
    length h = length (turns evs) /\
    map json_role_text h = map Some (turns evs).
Proof.
  intros w path He Hempty Hturns Hdir Hpath. subst w path.
  destruct (events_appended evs s He) as (s1 & Hrun & Happ).
  destruct Happ as (Ha & Hd & Hf & Hk & Hsc & Ht).
  set (es := turn_entries (clock (world s)) (ticks (world s)) evs) in *.
  assert (Hh : history (self s1) = es).
  { rewrite Ha, Hempty. reflexivity. }
  assert (Hne : history (self s1) <> []).
  { rewrite Hh. now apply turn_entries_nil. }
  assert (Hlen : length es = length (turns evs))
    by apply length_turn_entries.
  rewrite <- Hlen, <- Ht, <- Hk, <- Hd in Hpath.
  assert (Hdoc : forall t,
    json_member "history" (transcript_json (self s1) t) =
    Some (JArray (map entry_json es))).
  { intros t. rewrite <- Hh. reflexivity. }
  rewrite (bind_Ok _ _ _ _ _ Hrun).
  rewrite <- Hlen, <- Ht, <- Hk.
  destruct fn as [f|]; cbn [target] in *.
  - rewrite <- Hd in Hdir.
    destruct (save_conversation_explicit f s1 Hne Hdir Hpath)
      as (s' & Hsave & (_ & Hfiles & _) & _).
    exists s', (transcript_json (self s1) (clock (world s1) (ticks (world s1)))),
           (map entry_json es).
    rewrite Hfiles, lookup_insert_eq, Hdoc, length_map.
    repeat split; try assumption. apply role_text_of_entries.
  - rewrite <- Hf in Hdir.
    destruct (save_conversation_default s1 Hne Hdir Hpath)
      as (s' & Hsave & (_ & Hfiles & _) & _).
    exists s', (transcript_json (self s1)
                  (clock (world s1) (S (ticks (world s1))))),
           (map entry_json es).
    rewrite Hfiles, lookup_insert_eq, Hdoc, length_map.
    repeat split; try assumption. apply role_text_of_entries.
Qed.

(** C2. With an empty history the save operation does nothing at all,
    under either file name: it returns normally and the whole state, the
    file system included, is what it was.  Hence a session in which no
    agent or user callback fires leaves the files and directories as they
    were in every terminal state, however the SDK behaves: normal end,
    failure to construct or start the session, error while streaming,
    failure to end the session. *)
Theorem empty_history_writes_no_file (fn : option string) (s : Sys) :
  history (self s) = [] ->
  save_conversation fn s = (Ok tt, s) /\
  (turns (events (script (world s))) = [] ->
   history (self (snd (start s))) = [] /\
   files (world (snd (start s))) = files (world s) /\
   dirs (world (snd (start s))) = dirs (world s)).
Proof.
  intros H. split.
  - unfold save_conversation; sys_simpl. now rewrite H.
  - intros Hev. destruct s as [a w].
    destruct (start_untouched a w H Hev) as (H1 & H2 & H3).
    cbn [self world] in *. repeat split; congruence.
Qed.

(** C3, as the code has it.  When a session ends normally with a
    non-empty transcript, the transcript is written to
    [logs/conversation_<YYYYMMDD_HHMMSS>.json], where the timestamp is the
    reading of the clock taken when saving (after the start instant and
    after every callback), truncated to seconds; the [logs] directory
    exists afterwards, created if it was absent.  [logs] must not be a
    regular file and the target must not be a directory. *)
Theorem normal_end_writes_default_path
    (a : VoiceAssistant) (w : World) (id : string) :
  let es := turn_entries (clock w) (S (ticks w)) (events (script w)) in
  let saving := (S (ticks w) + length es)%nat in
  let path := "logs/conversation_" ++ strftime_Ymd_HMS (clock w saving)
              ++ ".json" in
  conversation_raises (script w) = None ->
  start_session_raises (script w) = None ->
  end_session_raises (script w) = None ->
  wait_for_session_end_result (script w) = inr id ->
  (history a ++ es)%list <> [] ->
  files w !! "logs" = None ->
  path ∉ dirs w ->
  exists s',
    start (mkSys a w) = (Ok tt, s') /\
    "logs" ∈ dirs (world s') /\
    files (world s') !! path =
      Some (JObject
              [("start_time", JString (isoformat (clock w (ticks w))));
               ("end_time", JString (isoformat (clock w (S saving))));
               ("history", JArray (map entry_json (history a ++ es)%list))]).
Proof.
  intros es saving path Hc Hs He Hw Hne Hlogs Hpath.
  destruct (start_normal_end a w id Hc Hs He Hw) as (s1 & Hover & ->).
  destruct Hover as (Ha & Hd & Hf & Hk & Hsc & Ht).
  fold es in Ha, Ht. fold saving in Ht.
  assert (Hh : history (self s1) = (history a ++ es)%list)
    by (rewrite Ha; reflexivity).
  assert (Hst : start_time (self s1) = Some (clock w (ticks w)))
    by (rewrite Ha; reflexivity).
  destruct (save_conversation_default s1) as (s' & Hsave & Hsaved & Hdirs & _).
  - now rewrite Hh.
  - now rewrite Hf.
  - now rewrite Hk, Ht, Hd.
  - destruct Hsaved as (_ & Hfiles & _).
    exists s'. rewrite (try_except_Ok _ _ _ _ _ Hsave).
    split; [reflexivity|]. split.
    + rewrite Hdirs. apply elem_of_union_l. now apply elem_of_singleton.
    + rewrite Hfiles, Hk, Ht. fold (default_path (clock w saving)).
      rewrite lookup_insert_eq.
      unfold transcript_json. now rewrite Hst, Hh.
Qed.

(** C4. The correction callback returns normally, emits one
    informational log line, and leaves the object, and with it every
    entry of the history, exactly as it was; it appends nothing. *)
Theorem correction_leaves_history (original corrected : string) (s : Sys) :
  exists s',
    correction_callback original corrected s = (Ok tt, s') /\
    self s' = self s /\
    history (self s') = history (self s) /\
    files (world s') = files (world s) /\
    log (world s') =
      (log (world s) ++
       [(INFO, ("Correction: '" ++ original ++ "' → '" ++ corrected ++ "'")%string)])%list.
Proof.
  eexists. unfold correction_callback; sys_simpl.
  split; [reflexivity|]. sys_simpl. repeat split.
Qed.

(** C5. When [AGENT_ID] is set neither in the environment nor in the
    [.env] file, [__init__] raises (a [ValueError], the configuration
    error of the program) before anything else happens: no file or
    directory is touched and the SDK receives no call, so neither a client
    nor a session is built; [main] then exits with status 1 without an
    assistant. *)
Theorem missing_agent_id_fails_early (w : World) :
  environ w !! "AGENT_ID" = None ->
  dotenv w !! "AGENT_ID" = None ->
  exists w',
    __init__ w =
      (Raise (mkExn "ValueError" "AGENT_ID environment variable is required"),
       w') /\
    files w' = files w /\ dirs w' = dirs w /\ sdk w' = sdk w /\
    exists w'',
      main w = (Exit 1, None, w'') /\
      files w'' = files w /\ dirs w'' = dirs w /\ sdk w'' = sdk w.
Proof.
  intros He Hd.
  assert (Hlook : (environ w ∪ dotenv w) !! "AGENT_ID" = None)
    by (apply lookup_union_None; split; assumption).
  assert (Hinit : __init__ w =
    (Raise (mkExn "ValueError" "AGENT_ID environment variable is required"),
     set_environ (fun e => e ∪ dotenv w) w)).
  { unfold __init__, load_dotenv, getenv; sys_simpl. now rewrite Hlook. }
  eexists; split; [exact Hinit|]. sys_simpl.
  repeat split.
  eexists. unfold main. rewrite Hinit. sys_simpl.
  split; [reflexivity|]. sys_simpl. repeat split.
Qed.

(** C8, as the code has it.  The [logMessage] tool always returns
    normally and with no value.  When the parameters hold a non-empty
    [message] it writes exactly that message, prefixed, as one
    informational log line; when the message is the empty string or the
    parameter is missing it writes nothing and changes nothing. *)
Theorem log_message_writes_non_empty (parameters : gmap string string) (s : Sys) :
  log_message parameters s =
  (Ok tt,
   match parameters !! "message" with
   | Some m =>
       if String.eqb m ""
       then s
       else mkSys (self s)
              (set_log
                 (fun r => (r ++ [(INFO, ("AI Tool Call - Log Message: " ++ m)%string)])%list)
                 (world s))
   | None => s
   end).
Proof.
  unfold log_message, truthy.
  destruct (parameters !! "message") as [m|]; [|reflexivity].
  destruct (String.eqb m ""); reflexivity.
Qed.

(** C9. An interrupt that arrives while no conversation object exists
    ends nothing: the handler returns normally, makes no call to the SDK,
    and leaves the object (history, start time, conversation) and the file
    system unchanged.  It does emit its log line. *)
Theorem interrupt_without_session (s : Sys) :
  conversation (self s) = None ->
  exists s',
    handle_interrupt s = (Ok tt, s') /\
    self s' = self s /\
    sdk (world s') = sdk (world s) /\
    files (world s') = files (world s) /\
    dirs (world s') = dirs (world s).
Proof.
  intros H. eexists. unfold handle_interrupt; sys_simpl. rewrite H.
  split; [reflexivity|]. sys_simpl. repeat split.
Qed.

(** C10. With an explicit file name [save_conversation] never creates a
    directory, whatever the name and the outcome.  So on the error path,
    with a non-empty history and no [logs] directory, the write to
    [logs/conversation_error.json] raises a file-system error and the
    state, the file system included, is what it was: nothing is
    persisted. *)
Theorem error_path_needs_logs_directory (s : Sys) :
  history (self s) <> [] ->
  "logs" ∉ dirs (world s) ->
  (forall f, dirs (world (snd (save_conversation (Some f) s))) = dirs (world s)) /\
  exists e,
    save_conversation (Some "logs/conversation_error.json") s = (Raise e, s) /\
    (exn_class e = "FileNotFoundError" ∨ exn_class e = "NotADirectoryError").
Proof.
  intros Hh Hlogs. split.
  - intros f. apply save_conversation_dirs_explicit.
  - apply save_conversation_no_dir; [exact Hh | discriminate | exact Hlogs].
Qed.

(** ** Further properties of the code *)

(** *** Configuration *)

(** X1. With a non-empty [AGENT_ID] and a [VOLUME] and [TIMEOUT] that
    convert (the defaults ["1.0"] and ["300"] stand in for unset
    variables), [__init__] returns an object that holds those values, an
    empty history, no conversation and no start time.  It builds the
    client with the API key, which is its only call to the SDK, and
    touches no file or directory. *)
Theorem init_builds_object (w : World) (id : string) (v : F) (t : Z) :
  let env := environ w ∪ dotenv w in
  env !! "AGENT_ID" = Some id ->
  id <> "" ->
  py_float (default "1.0" (env !! "VOLUME")) = Some v ->
  py_int (default "300" (env !! "TIMEOUT")) = Some t ->
  exists w',
    __init__ w =
      (Ok (mkVoiceAssistant id (env !! "ELEVENLABS_API_KEY") v t None
             (ElevenLabs (env !! "ELEVENLABS_API_KEY")) [] None), w') /\
    sdk w' = (sdk w ++ [New_ElevenLabs (env !! "ELEVENLABS_API_KEY")])%list /\
    files w' = files w /\ dirs w' = dirs w /\ log w' = log w.
Proof.
  intros env Hid Hne Hv Ht. subst env.
  unfold __init__, load_dotenv, getenv_default, getenv, sdk_do; sys_simpl.
  rewrite Hid. unfold truthy.
  apply String.eqb_neq in Hne. rewrite Hne. cbn [negb]. sys_simpl.
  rewrite Hv; sys_simpl. rewrite Ht; sys_simpl. cbn [default].
  eexists; split; [reflexivity|]. sys_simpl. repeat split.
Qed.

(** X2. An [AGENT_ID] that is set but empty is refused like a missing
    one: [__init__] raises the same [ValueError] before the client is
    built, and [main] exits with status 1. *)
Theorem empty_agent_id_refused (w : World) :
  (environ w ∪ dotenv w) !! "AGENT_ID" = Some "" ->
  exists w',
    __init__ w =
      (Raise (mkExn "ValueError" "AGENT_ID environment variable is required"),
       w') /\
    sdk w' = sdk w /\
    exists w'', main w = (Exit 1, None, w'') /\ sdk w'' = sdk w /\
                files w'' = files w.
Proof.
  intros H.
  assert (Hinit : __init__ w =
    (Raise (mkExn "ValueError" "AGENT_ID environment variable is required"),
     set_environ (fun e => e ∪ dotenv w) w)).
  { unfold __init__, load_dotenv, getenv; sys_simpl. now rewrite H. }
  eexists; split; [exact Hinit|]. split; [reflexivity|].
  eexists. unfold main. rewrite Hinit. sys_simpl.
  split; [reflexivity|]. sys_simpl. split; reflexivity.
Qed.




(** *** Relations kept by every statement *)

Lemma steps_ret {A} (R : Sys -> Sys -> Prop) `{!Reflexive R} (x : A) :
  steps R (ret x).
Proof. intros s. reflexivity. Qed.

Lemma steps_bind {A B} (R : Sys -> Sys -> Prop) `{!Transitive R}
    (m : M Sys A) (k : A -> M Sys B) :
  steps R m -> (forall x, steps R (k x)) -> steps R (bind m k).
Proof.
  intros Hm Hk s. unfold bind. specialize (Hm s).
  destruct (m s) as [[x|e|c] s1]; cbn [snd] in *; try exact Hm.
  transitivity s1; [exact Hm | apply Hk].
Qed.

Lemma steps_bind_self {B} (R : Sys -> Sys -> Prop)
    (k : VoiceAssistant -> M Sys B) :
  (forall a, steps R (k a)) -> steps R (bind get_self k).
Proof. intros Hk s. unfold bind, get_self. apply Hk. Qed.

Lemma steps_try_except {A} (R : Sys -> Sys -> Prop) `{!Transitive R}
    (m : M Sys A) (h : exn -> M Sys A) :
  steps R m -> (forall e, steps R (h e)) -> steps R (try_except m h).
Proof.
  intros Hm Hh s. unfold try_except. specialize (Hm s).
  destruct (m s) as [[x|e|c] s1]; cbn [snd] in *; try exact Hm.
  transitivity s1; [exact Hm | apply Hh].
Qed.

Lemma steps_for_each {A} (R : Sys -> Sys -> Prop) `{!PreOrder R}
    (f : A -> M Sys unit) (l : list A) :
  (forall x, steps R (f x)) -> steps R (for_each f l).
Proof.
  intros Hf. induction l as [|x l IH]; cbn [for_each].
  - apply steps_ret; apply _.
  - apply steps_bind; [apply _ | apply Hf | intros _; exact IH].
Qed.

(** *** Nothing recorded is ever lost *)

#[local] Instance grows_preorder : PreOrder grows.
Proof.
  split.
  - intros s. unfold grows. repeat split; reflexivity.
  - intros s1 s2 s3 (H1 & H2 & H3 & H4 & H5 & H6) (K1 & K2 & K3 & K4 & K5 & K6).
    unfold grows. repeat split; try (etransitivity; eassumption).
Qed.

(** The shapes a single statement gives to the components of [grows]. *)
Ltac grows_now :=
  unfold grows; sys_simpl; cbn [snd];
  repeat split;
  first [ reflexivity
        | apply prefix_app_r; reflexivity
        | apply Nat.le_succ_diag_r
        | apply union_subseteq_r
        | apply dom_insert_subseteq ].

Lemma grows_log (l : level) (msg : string) : steps grows (in_world (emit l msg)).
Proof. intros [a w]. destruct l; grows_now. Qed.

Lemma grows_now_reading : steps grows (in_world now).
Proof. intros [a w]. grows_now. Qed.

Lemma grows_sdk_do (c : sdk_call) (raises : Collaborator -> option exn) :
  steps grows (in_world (sdk_do c raises)).
Proof.
  intros [a w]. unfold sdk_do; sys_simpl.
  destruct (raises (script w)); grows_now.
Qed.

Lemma grows_mkdir (p : string) : steps grows (in_world (mkdir_exist_ok p)).
Proof.
  intros [a w]. unfold mkdir_exist_ok; sys_simpl.
  destruct (decide (p ∈ dirs w)); [grows_now|].
  destruct (decide (is_Some (files w !! p))); grows_now.
Qed.

Lemma grows_open (p : string) : steps grows (in_world (open_w p)).
Proof.
  intros [a w]. unfold open_w; sys_simpl.
  repeat (match goal with
          | |- context [decide ?P] => destruct (decide P)
          end; sys_simpl); grows_now.
Qed.

Lemma grows_json_dump (j : json) (p : string) :
  steps grows (in_world (json_dump j p)).
Proof. intros [a w]. grows_now. Qed.

Lemma grows_history_append (e : entry) : steps grows (history_append e).
Proof. intros [a w]. grows_now. Qed.

Lemma grows_set_start_time (t : option datetime) :
  steps grows (set_start_time t).
Proof. intros [a w]. grows_now. Qed.

Lemma grows_set_conversation (c : option Conversation) :
  steps grows (set_conversation c).
Proof. intros [a w]. grows_now. Qed.

Ltac grows_step :=
  first [ apply grows_log | apply grows_now_reading | apply grows_sdk_do
        | apply grows_mkdir | apply grows_open | apply grows_json_dump
        | apply grows_history_append | apply grows_set_start_time
        | apply grows_set_conversation
        | apply steps_ret; apply _
        | apply steps_bind_self; intros
        | apply steps_bind; [apply _ | | intros] ].

Lemma grows_save_conversation (fn : option string) :
  steps grows (save_conversation fn).
Proof.
  unfold save_conversation, logger_info.
  apply steps_bind_self; intros a.
  destruct (history a); [apply steps_ret; apply _|].
  apply steps_bind; [apply _ | destruct fn; repeat grows_step | intros f].
  repeat grows_step.
Qed.

Lemma grows_handle_interrupt : steps grows handle_interrupt.
Proof.
  unfold handle_interrupt, logger_info, end_session.
  do 2 grows_step.
  destruct (conversation a); grows_step.
Qed.

Lemma grows_deliver (ev : event) : steps grows (deliver ev).
Proof.
  destruct ev as [r|t|o c|l|name ps|]; unfold deliver.
  - unfold agent_response_callback, logger_info. repeat grows_step.
  - unfold user_transcript_callback, logger_info. repeat grows_step.
  - unfold correction_callback, logger_info. grows_step.
  - unfold latency_callback, logger_debug. grows_step.
  - grows_step.
    destruct (conversation a) as [[args]|]; [|grows_step].
    destruct (find_tool name (arg_client_tools args)) as [[]|]; [|grows_step].
    unfold run_tool, log_message, logger_info.
    destruct (truthy (ps !! "message")); grows_step.
  - apply grows_handle_interrupt.
Qed.

Lemma grows_start_except (e : exn) : steps grows (start_except e).
Proof.
  unfold start_except, logger_error, end_session.
  do 2 grows_step.
  apply steps_bind; [apply _ | destruct (conversation a); grows_step | intros _].
  apply steps_bind; [apply _ | apply grows_save_conversation | intros _].
  intros s. reflexivity.
Qed.

Lemma grows_wait_for_session_end : steps grows wait_for_session_end.
Proof.
  unfold wait_for_session_end.
  apply steps_bind; [apply _ | apply grows_sdk_do | intros _].
  intros s. unfold bind at 1, get.
  pose proof (steps_for_each grows deliver (events (script (world s)))
                grows_deliver s) as H.
  unfold bind.
  destruct (for_each deliver (events (script (world s))) s) as [[u|e|c] s1];
    cbn [snd] in *; try exact H.
  destruct (wait_for_session_end_result (script (world s))); exact H.
Qed.


(** X5. On every path through [start], whatever the SDK does, nothing
    recorded is lost: the history, the log and the sequence of SDK calls
    at the end extend what they were at the beginning, the clock is never
    read backwards, and no directory or file disappears. *)
Theorem start_only_grows (s : Sys) : grows s (snd (start s)).
Proof.
  revert s. change (steps grows start). unfold start.
  apply steps_try_except; [apply _ | | apply grows_start_except].
  apply steps_bind; [apply _ | intros [a w]; grows_now | intros _].
  apply steps_bind; [apply _ | apply grows_now_reading | intros t0].
  apply steps_bind; [apply _ | apply grows_set_start_time | intros _].
  apply steps_bind; [apply _ | apply steps_ret; apply _ | intros tools].
  apply steps_bind_self; intros a.
  apply steps_bind;
    [apply _ | unfold new_Conversation; repeat grows_step | intros c].
  apply steps_bind; [apply _ | apply grows_set_conversation | intros _].
  apply steps_bind; [apply _ | apply grows_log | intros _].
  apply steps_bind; [apply _ | apply grows_sdk_do | intros _].
  apply steps_bind; [apply _ | apply grows_wait_for_session_end | intros cid].
  apply steps_bind; [apply _ | apply grows_log | intros _].
  apply grows_save_conversation.
Qed.

(** *** Exit statuses *)
























(** *** What event delivery leaves alone *)

Lemma same_session_refl (s : Sys) : same_session s s.
Proof. repeat split. Qed.

Lemma same_session_trans (s1 s2 s3 : Sys) :
  same_session s1 s2 -> same_session s2 s3 -> same_session s1 s3.
Proof.
  intros (H1 & H2 & H3 & H4) (K1 & K2 & K3 & K4).
  repeat split; congruence.
Qed.

Ltac same_now := unfold same_session; sys_simpl; cbn [fst snd]; repeat split.

(** An event changes neither the file system nor the conversation, and
    the only thing that can make its delivery raise is [end_session]. *)
Lemma deliver_same_session (ev : event) (s : Sys) :
  same_session s (snd (deliver ev s)) /\
  (fst (deliver ev s) = Ok tt ∨
   exists e, end_session_raises (script (world s)) = Some e /\
             fst (deliver ev s) = Raise e).
Proof.
  destruct s as [a w].
  destruct ev as [r|t|o c|l|name ps|]; unfold deliver.
  - unfold agent_response_callback. same_now. now left.
  - unfold user_transcript_callback. same_now. now left.
  - unfold correction_callback. same_now. now left.
  - unfold latency_callback. same_now. now left.
  - sys_simpl.
    destruct (conversation a) as [[args]|] eqn:Ec; [|same_now; now left].
    destruct (find_tool name (arg_client_tools args)) as [[]|];
      [|same_now; now left].
    unfold run_tool, log_message.
    destruct (truthy (ps !! "message")); same_now; now left.
  - unfold handle_interrupt; sys_simpl.
    destruct (conversation a) eqn:Ec; [|same_now; now left].
    unfold end_session, sdk_do; sys_simpl.
    destruct (end_session_raises (script w)) as [e|] eqn:Ee;
      same_now; [right; now exists e | now left].
Qed.

Lemma events_same_session (evs : list event) (s : Sys) :
  same_session s (snd (for_each deliver evs s)) /\
  (fst (for_each deliver evs s) = Ok tt ∨
   exists e, end_session_raises (script (world s)) = Some e /\
             fst (for_each deliver evs s) = Raise e).
Proof.
  revert s; induction evs as [|ev evs IH]; intros s.
  - split; [apply same_session_refl | now left].
  - cbn [for_each]. unfold bind.
    destruct (deliver_same_session ev s) as [Hs Hr].
    destruct (deliver ev s) as [[[]|e|c] s1]; cbn [fst snd] in *.
    + destruct (IH s1) as [Hs1 Hr1]. split.
      * now apply (same_session_trans _ s1).
      * destruct Hr1 as [Hok|(e & He & Hraise)]; [now left|].
        right. exists e. split; [|exact Hraise].
        destruct Hs as (_ & _ & _ & Hsc). now rewrite <- Hsc.
    + split; [exact Hs | exact Hr].
    + split; [exact Hs|]. destruct Hr as [Hr|(e & _ & Hr)]; discriminate Hr.
Qed.

(** *** Failures of the SDK *)

(** X7. When the [Conversation] constructor raises, [start] logs the
    error and exits with status 1.  The constructor is the only call the
    SDK receives: the session is neither started nor ended, because the
    object has no conversation yet.  The start time is already set, and
    with the empty history of a fresh object nothing is written. *)
Theorem constructor_failure (a : VoiceAssistant) (w : World) (e : exn) :
  conversation_raises (script w) = Some e ->
  conversation a = None ->
  history a = [] ->
  exists s',
    start (mkSys a w) = (Exit 1, s') /\
    sdk (world s') =
      (sdk w ++
       [New_Conversation
          (mkArgs (client a) (agent_id a) (truthy (api_key a))
                  Agent_response_callback User_transcript_callback
                  Correction_callback Latency_callback
                  (volume a) [("logMessage", Log_message)])])%list /\
    conversation (self s') = None /\
    start_time (self s') = Some (clock w (ticks w)) /\
    files (world s') = files w /\
    dirs (world s') = dirs w /\
    log (world s') =
      (log w ++ [(ERROR, ("Error during conversation: " ++ exn_str e)%string)])%list.
Proof.
  intros Hc Hconv Hh.
  session_simpl. rewrite Hc; sys_simpl.
  unfold start_except; sys_simpl. rewrite Hconv.
  rewrite save_conversation_empty by exact Hh.
  eexists; split; [reflexivity|]. sys_simpl. now repeat split.
Qed.

(** X8. When [start_session] raises, the conversation object already
    exists, so the handler ends the session: the SDK receives the
    constructor, [start_session] and [end_session], in this order, and
    [start] exits with status 1 (here with the empty history of a fresh
    object, so that nothing is written). *)
Theorem start_session_failure (a : VoiceAssistant) (w : World) (e : exn) :
  conversation_raises (script w) = None ->
  start_session_raises (script w) = Some e ->
  end_session_raises (script w) = None ->
  history a = [] ->
  exists s',
    start (mkSys a w) = (Exit 1, s') /\
    sdk (world s') =
      (sdk w ++
       [New_Conversation
          (mkArgs (client a) (agent_id a) (truthy (api_key a))
                  Agent_response_callback User_transcript_callback
                  Correction_callback Latency_callback
                  (volume a) [("logMessage", Log_message)]);
        Start_session; End_session])%list /\
    files (world s') = files w /\
    dirs (world s') = dirs w.
Proof.
  intros Hc Hs He Hh.
  session_simpl. rewrite Hc; sys_simpl. rewrite Hs; sys_simpl.
  unfold start_except; sys_simpl.
  unfold end_session, sdk_do; sys_simpl. rewrite He.
  rewrite save_conversation_empty by exact Hh.
  eexists; split; [reflexivity|]. sys_simpl.
  repeat rewrite <- app_assoc. now repeat split.
Qed.

(** X9. When the session fails while streaming and [end_session] raises
    in its turn, the handler is left at that point: the transcript is not
    saved, whatever was recorded and whether or not [logs] exists, and
    [start] raises the exception of [end_session] instead of exiting. *)
Theorem end_session_failure_skips_save
    (a : VoiceAssistant) (w : World) (e e2 : exn) :
  conversation_raises (script w) = None ->
  start_session_raises (script w) = None ->
  wait_for_session_end_result (script w) = inl e ->
  end_session_raises (script w) = Some e2 ->
  exists s',
    start (mkSys a w) = (Raise e2, s') /\
    files (world s') = files w /\
    dirs (world s') = dirs w.
Proof.
  intros Hc Hs Hw He.
  session_simpl. rewrite Hc; sys_simpl. rewrite Hs; sys_simpl. rewrite Hw.
  match goal with
  | |- context [for_each deliver ?evs ?s0] =>
      destruct (events_same_session evs s0) as [Hsame Hres];
      destruct (for_each deliver evs s0) as [r s1]
  end.
  cbn [fst snd] in *. destruct Hsame as (Hf & Hd & Hconv & Hsc).
  sys_simpl_in Hf. sys_simpl_in Hd. sys_simpl_in Hconv. sys_simpl_in Hsc.
  sys_simpl_in Hres.
  assert (Hexc : forall e', exists s',
            start_except e' s1 = (Raise e2, s') /\
            files (world s') = files w /\ dirs (world s') = dirs w).
  { intros e'. destruct s1 as [a1 w1]; cbn [self world] in *.
    unfold start_except; sys_simpl. rewrite Hconv.
    unfold end_session, sdk_do; sys_simpl. rewrite Hsc, He.
    eexists; split; [reflexivity|]. sys_simpl. now split. }
  destruct Hres as [->|(e' & He' & ->)]; sys_simpl; apply Hexc.
Qed.

(** *** Saving, continued *)

(** X10. [save_conversation] never changes the assistant object (the
    history is kept after saving) nor calls the SDK, and the only file it
    can create or change is its target: every other path holds what it
    held before, whether the call returns or raises. *)
Theorem save_conversation_frame (fn : option string) (s : Sys) :
  let s' := snd (save_conversation fn s) in
  self s' = self s /\
  sdk (world s') = sdk (world s) /\
  forall p, p <> target fn (clock (world s) (ticks (world s))) ->
            files (world s') !! p = files (world s) !! p.
Proof.
  destruct s as [a w]. unfold save_conversation; sys_simpl.
  destruct (history a); [cbn; now repeat split|].
  destruct fn as [f|]; cbn [target].
  - unfold open_w; sys_simpl.
    repeat (match goal with
            | |- context [decide ?P] => destruct (decide P)
            end; sys_simpl); cbn [snd]; sys_simpl;
      repeat split; try reflexivity.
    intros p Hp. now apply lookup_insert_ne.
  - unfold mkdir_exist_ok, open_w; sys_simpl.
    repeat (match goal with
            | |- context [decide ?P] => destruct (decide P)
            end; sys_simpl); cbn [snd]; sys_simpl;
      repeat split; try reflexivity;
      intros p Hp; now apply lookup_insert_ne.
Qed.

(** The default-path save when [logs] is a regular file. *)
Lemma save_conversation_logs_is_file (s : Sys) :
  history (self s) <> [] ->
  "logs" ∉ dirs (world s) ->
  is_Some (files (world s) !! "logs") ->
  save_conversation None s =
    (Raise (mkExn "FileExistsError" "[Errno 17] File exists: 'logs'"), s).
Proof.
  destruct s as [a w]; cbn [self world]. intros Hh Hd Hf.
  unfold save_conversation; sys_simpl.
  destruct (history a); [congruence|].
  unfold mkdir_exist_ok; sys_simpl.
  now rewrite (decide_False _ _ Hd), (decide_True _ _ Hf).
Qed.

(** X11. The default-path save sits inside the [try] of [start], so a
    failure to write on the normal path is handled like a session error.
    When [logs] is a regular file, [mkdir] raises after a normal end; the
    handler then calls [end_session] on the session that has already
    ended and tries the error transcript, whose [open] fails on the same
    [logs]: [start] raises [NotADirectoryError] and nothing is written. *)
Theorem normal_end_save_failure
    (a : VoiceAssistant) (w : World) (id : string) :
  let es := turn_entries (clock w) (S (ticks w)) (events (script w)) in
  conversation_raises (script w) = None ->
  start_session_raises (script w) = None ->
  end_session_raises (script w) = None ->
  wait_for_session_end_result (script w) = inr id ->
  (history a ++ es)%list <> [] ->
  "logs" ∉ dirs w ->
  is_Some (files w !! "logs") ->
  exists s',
    start (mkSys a w) =
      (Raise (mkExn "NotADirectoryError"
                "[Errno 20] Not a directory: 'logs/conversation_error.json'"),
       s') /\
    last (sdk (world s')) = Some End_session /\
    files (world s') = files w /\
    dirs (world s') = dirs w.
Proof.
  intros es Hc Hs He Hw Hne Hd Hf.
  destruct (start_normal_end a w id Hc Hs He Hw) as (s1 & Hover & ->).
  destruct Hover as (Ha & Hd1 & Hf1 & Hk & Hsc & Ht). fold es in Ha.
  assert (Hh : history (self s1) = (history a ++ es)%list)
    by (rewrite Ha; reflexivity).
  assert (Hconv : is_Some (conversation (self s1)))
    by (rewrite Ha; cbn; eexists; reflexivity).
  destruct Hconv as [c Hconv].
  rewrite (try_except_Raise _ _ _ _ _
             (save_conversation_logs_is_file s1
                ltac:(now rewrite Hh) ltac:(now rewrite Hd1)
                ltac:(now rewrite Hf1))).
  destruct s1 as [a1 w1]; cbn [self world] in *.
  unfold start_except; sys_simpl. rewrite Hconv.
  unfold end_session, sdk_do; sys_simpl. rewrite Hsc, He.
  unfold save_conversation; sys_simpl. rewrite Hh.
  destruct (history a ++ es)%list as [|e0 h0] eqn:Eh; [congruence|].
  unfold open_w; sys_simpl.
  change (dirname "logs/conversation_error.json") with "logs".
  rewrite Hd1, Hf1.
  assert (Hno : ¬ ("logs" = "" ∨ "logs" ∈ dirs w))
    by (intros [E|E]; [discriminate E | exact (Hd E)]).
  rewrite (decide_False _ _ Hno), (decide_True _ _ Hf).
  eexists; split; [reflexivity|]. sys_simpl.
  split; [apply last_snoc|]. now split.
Qed.

(** *** An interrupt during the session *)

Lemma for_each_app {S A} (f : A -> M S unit) (l1 l2 : list A) (s : S) :
  for_each f (l1 ++ l2)%list s =
  bind (for_each f l1) (fun _ => for_each f l2) s.
Proof.
  revert s; induction l1 as [|x l1 IH]; intros s; [reflexivity|].
  cbn [for_each app]. unfold bind.
  destruct (f x s) as [[u|e|c] s1]; [|reflexivity ..].
  rewrite IH. reflexivity.
Qed.

(** A SIGINT among the events reaches [end_session] when a conversation
    exists, and the events after it are still delivered. *)
Lemma interrupt_recorded (evs1 evs2 : list event) (s : Sys) :
  end_session_raises (script (world s)) = None ->
  is_Some (conversation (self s)) ->
  exists s',
    for_each deliver (evs1 ++ SIGINT :: evs2)%list s = (Ok tt, s') /\
    End_session ∈ sdk (world s').
Proof.
  intros He [c Hc].
  destruct (events_appended evs1 s He) as (sa & Hrun1 & Happ1).
  destruct Happ1 as (Ha & _ & _ & _ & Hsc & _).
  assert (Hca : conversation (self sa) = Some c)
    by (rewrite Ha; exact Hc).
  assert (Hea : end_session_raises (script (world sa)) = None)
    by (now rewrite Hsc).
  assert (Hint : exists sb, deliver SIGINT sa = (Ok tt, sb) /\
                   sdk (world sb) = (sdk (world sa) ++ [End_session])%list /\
                   script (world sb) = script (world sa)).
  { destruct sa as [a1 w1]; cbn [self world] in *.
    unfold deliver, handle_interrupt; sys_simpl. rewrite Hca.
    unfold end_session, sdk_do; sys_simpl. rewrite Hea.
    eexists; split; [reflexivity|]. sys_simpl. now split. }
  destruct Hint as (sb & Hrun2 & Hsdk & Hscb).
  assert (Heb : end_session_raises (script (world sb)) = None)
    by (now rewrite Hscb).
  destruct (events_appended evs2 sb Heb) as (sc & Hrun3 & _).
  pose proof (steps_for_each grows deliver evs2 grows_deliver sb) as Hg.
  rewrite Hrun3 in Hg. destruct Hg as (_ & _ & [k Hk] & _).
  exists sc. split.
  - rewrite for_each_app, (bind_Ok _ _ _ _ _ Hrun1).
    cbn [for_each]. now rewrite (bind_Ok _ _ _ _ _ Hrun2).
  - cbn [snd] in Hk. rewrite Hk, Hsdk.
    apply elem_of_app; left. apply elem_of_app; right.
    now apply list_elem_of_singleton.
Qed.

(** The normal run with its event loop in view. *)
Lemma start_normal_end_run (a : VoiceAssistant) (w : World) (id : string) :
  conversation_raises (script w) = None ->
  start_session_raises (script w) = None ->
  end_session_raises (script w) = None ->
  wait_for_session_end_result (script w) = inr id ->
  exists s0 s1 s2,
    is_Some (conversation (self s0)) /\
    script (world s0) = script w /\
    for_each deliver (events (script w)) s0 = (Ok tt, s1) /\
    self s2 = self s1 /\
    sdk (world s2) = sdk (world s1) /\
    session_over a w s2 /\
    start (mkSys a w) = try_except (save_conversation None) start_except s2.
Proof.
  intros Hc Hs He Hw.
  session_simpl. rewrite Hc; sys_simpl. rewrite Hs; sys_simpl.
  rewrite Hw.
  match goal with
  | |- context [for_each deliver ?evs ?s0] =>
      destruct (events_appended evs s0) as (s1 & Hrun & Happ);
        [exact He | rewrite Hrun; exists s0, s1]
  end.
  exists (mkSys (self s1)
            (set_log
               (fun r => (r ++ [(INFO, ("Conversation ended. ID: " ++ id)%string)])%list)
               (world s1))).
  destruct Happ as (Ha & Hd & Hf & Hk & Hsc & Ht); sys_simpl.
  split; [cbn; eexists; reflexivity|].
  split; [reflexivity|]. split; [exact Hrun|].
  split; [reflexivity|]. split; [reflexivity|].
  split; [|reflexivity].
  unfold session_over, in_session; sys_simpl.
  repeat split; assumption.
Qed.

(** X12. An interrupt that arrives during a session ends it through
    [end_session] and is no error: when the SDK then returns from
    [wait_for_session_end], [start] returns normally, the history holds
    the entries recorded before and after the interrupt, and the
    transcript is written to the default path. *)
Theorem interrupt_mid_session
    (a : VoiceAssistant) (w : World) (id : string) (evs1 evs2 : list event) :
  let es := turn_entries (clock w) (S (ticks w)) (evs1 ++ SIGINT :: evs2) in
  let path := default_path (clock w (S (ticks w) + length es)) in
  events (script w) = (evs1 ++ SIGINT :: evs2)%list ->
  conversation_raises (script w) = None ->
  start_session_raises (script w) = None ->
  end_session_raises (script w) = None ->
  wait_for_session_end_result (script w) = inr id ->
  (history a ++ es)%list <> [] ->
  files w !! "logs" = None ->
  path ∉ dirs w ->
  exists s',
    start (mkSys a w) = (Ok tt, s') /\
    End_session ∈ sdk (world s') /\
    history (self s') = (history a ++ es)%list /\
    is_Some (files (world s') !! path).
Proof.
  intros es path Hev Hc Hs He Hw Hne Hlogs Hpath.
  destruct (start_normal_end_run a w id Hc Hs He Hw)
    as (s0 & s1 & s2 & Hconv & Hsc0 & Hrun & Hself & Hsdk & Hover & ->).
  destruct (interrupt_recorded evs1 evs2 s0) as (s1' & Hrun' & Hin);
    [now rewrite Hsc0 | exact Hconv |].
  rewrite Hev in Hrun. rewrite Hrun in Hrun'. inversion Hrun'; subst s1'.
  destruct Hover as (Ha & Hd & Hf & Hk & Hsc & Ht).
  rewrite Hev in Ha, Ht. fold es in Ha, Ht.
  assert (Hh : history (self s2) = (history a ++ es)%list)
    by (rewrite Ha; reflexivity).
  destruct (save_conversation_default s2)
    as (s' & Hsave & (Hself' & Hfiles & _ & Hsdk') & _).
  - now rewrite Hh.
  - now rewrite Hf.
  - now rewrite Hk, Ht, Hd.
  - exists s'. rewrite (try_except_Ok _ _ _ _ _ Hsave).
    split; [reflexivity|]. split; [|split].
    + now rewrite Hsdk', Hsdk.
    + now rewrite Hself', Hh.
    + rewrite Hfiles, Hk, Ht. fold path. rewrite lookup_insert_eq.
      eexists; reflexivity.
Qed.

(** *** How [start] begins *)



#[local] Instance same_start_time_preorder : PreOrder same_start_time.
Proof.
  split.
  - intros s. reflexivity.
  - intros s1 s2 s3 H1 H2. unfold same_start_time in *. congruence.
Qed.








Lemma grows_in_world_sdk_prefix (l : list sdk_call) (s s' : Sys) :
  l `prefix_of` sdk (world s) -> grows s s' -> l `prefix_of` sdk (world s').
Proof.
  intros Hl (_ & _ & Hsdk & _). now transitivity (sdk (world s)).
Qed.


(** *** Entries and the clock *)

(** X16. Each agent response and each user transcript appends exactly
    one entry stamped with the reading of the clock taken in that
    callback, so the entries carry successive readings in the order of
    the invocations; the other events (corrections, latency samples, tool
    calls, interrupts) read no clock and append nothing, and no event
    touches a file or a directory.  Ending the session must not raise. *)
Theorem callbacks_stamp_entries (evs : list event) (s : Sys) :
  end_session_raises (script (world s)) = None ->
  exists s',
    for_each deliver evs s = (Ok tt, s') /\
    history (self s') =
      (history (self s) ++
       turn_entries (clock (world s)) (ticks (world s)) evs)%list /\
    ticks (world s') = (ticks (world s) + length (turns evs))%nat /\
    files (world s') = files (world s) /\
    dirs (world s') = dirs (world s).
Proof.
  intros He.
  destruct (events_appended evs s He) as (s' & Hrun & Ha & Hd & Hf & _ & _ & Ht).
  exists s'. split; [exact Hrun|].
  split; [rewrite Ha; reflexivity|].
  split; [rewrite Ht; f_equal; apply length_turn_entries|].
  split; assumption.
Qed.

End Assistant.

(** ** The claims on concrete runs

    In the runs below a float is kept as its text and [int] reads
    decimal numerals. *)

Lemma history_order_and_fidelity_witness :
  exists s' doc h,
    bind (for_each (deliver string id) (hello_events string))
         (fun _ => save_conversation string (Some "transcript.json"))
         (mkSys string (demo_assistant string "1.0")
                (demo_world string demo_env ∅ (normal_end string))) = (Ok tt, s') /\
    files string (world string s') !! "transcript.json" = Some doc /\
    json_member "history" doc = Some (JArray h) /\
    length h = 2%nat /\
    map json_role_text h = [Some ("user", "hello"); Some ("agent", "hi there")].
Proof.
  apply (history_order_and_fidelity string id (hello_events string)
           (Some "transcript.json")
           (mkSys string (demo_assistant string "1.0")
                  (demo_world string demo_env ∅ (normal_end string)))).
  - reflexivity.
  - reflexivity.
  - discriminate.
  - left; reflexivity.
  - apply not_elem_of_empty.
Defined.

Lemma empty_history_writes_no_file_witness :
  let s := mkSys string (demo_assistant string "1.0")
                 (demo_world string demo_env ∅ (silent_session string)) in
  save_conversation string None s = (Ok tt, s) /\
  history string (self string (snd (start string id s))) = [] /\
  files string (world string (snd (start string id s))) = ∅ /\
  dirs string (world string (snd (start string id s))) = ∅.
Proof.
  intros s.
  destruct (empty_history_writes_no_file string id None s eq_refl)
    as [Hsave Hstart].
  split; [exact Hsave | exact (Hstart eq_refl)].
Defined.

(** C3 as the spec words it fails on the scenario of the spec itself: the
    session starts at 10:00:30, two entries are recorded, the SDK reports a
    normal end.  Nothing is written to [logs/20240115_100030.json], the
    path made of the start instant; the transcript is in
    [logs/conversation_20240115_100330.json], named after the reading of
    the clock taken when saving. *)
Lemma start_instant_path_not_written :
  let '(r, s') :=
    start string id
      (mkSys string (demo_assistant string "1.0")
             (demo_world string demo_env ∅ (normal_end string))) in
  r = Ok tt /\
  length (history string (self string s')) = 2%nat /\
  start_time string (self string s') = Some (demo_clock 0) /\
  spec_path (demo_clock 0) = "logs/20240115_100030.json" /\
  files string (world string s') !! spec_path (demo_clock 0) = None /\
  is_Some (files string (world string s')
             !! "logs/conversation_20240115_100330.json").
Proof.
  vm_compute. repeat split. eexists; reflexivity.
Qed.

Lemma normal_end_writes_default_path_witness :
  exists s',
    start string id
      (mkSys string (demo_assistant string "1.0")
             (demo_world string demo_env ∅ (normal_end string))) = (Ok tt, s') /\
    "logs" ∈ dirs string (world string s') /\
    files string (world string s') !! "logs/conversation_20240115_100330.json" =
      Some (JObject
              [("start_time", JString "2024-01-15T10:00:30");
               ("end_time", JString "2024-01-15T10:04:30");
               ("history",
                JArray
                  [JObject [("role", JString "user"); ("text", JString "hello");
                            ("timestamp", JString "2024-01-15T10:01:30")];
                   JObject [("role", JString "agent");
                            ("text", JString "hi there");
                            ("timestamp", JString "2024-01-15T10:02:30")]])]).
Proof.
  apply (normal_end_writes_default_path string id
           (demo_assistant string "1.0")
           (demo_world string demo_env ∅ (normal_end string)) "conv_1").
  - reflexivity.
  - reflexivity.
  - reflexivity.
  - reflexivity.
  - discriminate.
  - reflexivity.
  - apply not_elem_of_empty.
Defined.

Lemma missing_agent_id_fails_early_witness :
  exists w',
    __init__ string keep_text read_decimal
      (demo_world string ∅ ∅ (normal_end string)) =
      (Raise (mkExn "ValueError" "AGENT_ID environment variable is required"),
       w') /\
    files string w' = ∅ /\ dirs string w' = ∅ /\ sdk string w' = [] /\
    exists w'',
      main string keep_text read_decimal id
        (demo_world string ∅ ∅ (normal_end string)) = (Exit 1, None, w'') /\
      files string w'' = ∅ /\ dirs string w'' = ∅ /\ sdk string w'' = [].
Proof.
  apply (missing_agent_id_fails_early string keep_text read_decimal id
           (demo_world string ∅ ∅ (normal_end string)));
    reflexivity.
Defined.

(** C8 as the spec words it fails for the two inputs it singles out: for
    the empty message and for a missing parameter the tool writes no line
    at all, where the claim has it write the (empty) message. *)
Lemma log_message_silent_on_empty :
  let s := mkSys string (demo_assistant string "1.0")
                 (demo_world string demo_env ∅ (normal_end string)) in
  log string (world string (snd (log_message string {[ "message" := "" ]} s)))
    <> (log string (world string s)
        ++ [(INFO, "AI Tool Call - Log Message: ")])%list /\
  log string (world string (snd (log_message string ∅ s)))
    <> (log string (world string s)
        ++ [(INFO, "AI Tool Call - Log Message: ")])%list /\
  log string (world string (snd (log_message string {[ "message" := "" ]} s)))
    = log string (world string s).
Proof.
  vm_compute. repeat split; discriminate.
Qed.

Lemma interrupt_without_session_witness :
  exists s',
    handle_interrupt string
      (mkSys string (demo_assistant string "1.0")
             (demo_world string demo_env ∅ (normal_end string))) = (Ok tt, s') /\
    self string s' = demo_assistant string "1.0" /\
    sdk string (world string s') = [] /\
    files string (world string s') = ∅ /\
    dirs string (world string s') = ∅.
Proof.
  apply (interrupt_without_session string
           (mkSys string (demo_assistant string "1.0")
                  (demo_world string demo_env ∅ (normal_end string)))).
  reflexivity.
Defined.

Lemma error_path_needs_logs_directory_witness :
  let s := mkSys string (one_entry string "1.0")
                 (demo_world string demo_env ∅ (streaming_error string)) in
  (forall f,
     dirs string (world string (snd (save_conversation string (Some f) s))) = ∅) /\
  exists e,
    save_conversation string (Some "logs/conversation_error.json") s =
      (Raise e, s) /\
    (exn_class e = "FileNotFoundError" ∨ exn_class e = "NotADirectoryError").
Proof.
  apply (error_path_needs_logs_directory string
           (mkSys string (one_entry string "1.0")
                  (demo_world string demo_env ∅ (streaming_error string)))).
  - discriminate.
  - apply not_elem_of_empty.
Defined.

(** C6 on a fresh working directory: two entries are recorded, then
    streaming raises.  The handler ends the session, but there is no [logs]
    directory and the error path does not make one, so [open] raises inside
    the handler: no transcript is written anywhere, the final [sys.exit(1)]
    of [start] is not reached, and the status 1 comes from [main]. *)
Lemma streaming_error_on_fresh_directory :
  let '(r, a, w') :=
    main string keep_text read_decimal id
      (demo_world string demo_env ∅ (streaming_error string)) in
  exit_status r = 1%Z /\
  (length <$> (history string <$> a)) = Some 2%nat /\
  last (sdk string w') = Some (End_session string) /\
  files string w' = ∅ /\
  dirs string w' = ∅ /\
  last (log string w') =
    Some (ERROR,
          "Application error: [Errno 2] No such file or directory: 'logs/conversation_error.json'").
Proof.
  vm_compute. repeat split.
Qed.

(** The same run in a directory that has [logs]: the transcript with the
    two entries is written to the fixed name and [start] exits with 1. *)
Lemma streaming_error_with_logs_directory :
  let '(r, a, w') :=
    main string keep_text read_decimal id
      (demo_world string demo_env {[ "logs" ]} (streaming_error string)) in
  r = Exit 1 /\
  last (sdk string w') = Some (End_session string) /\
  (json_member "history" <$> (files string w' !! "logs/conversation_error.json")) =
    Some (Some (JArray
      [JObject [("role", JString "user"); ("text", JString "hello");
                ("timestamp", JString "2024-01-15T10:01:30")];
       JObject [("role", JString "agent"); ("text", JString "hi there");
                ("timestamp", JString "2024-01-15T10:02:30")]])).
Proof.
  vm_compute. repeat split.
Qed.

(** C7 on two runs that differ only in [TIMEOUT]: the value is read and
    stored in the object (300 by default, 60 when set), but the SDK
    receives the same calls with the same arguments in both runs, and the
    runs end alike. *)
Lemma timeout_read_but_not_passed :
  let run env :=
    main string keep_text read_decimal id
      (demo_world string env ∅ (normal_end string)) in
  let '(r1, a1, w1) := run demo_env in
  let '(r2, a2, w2) := run (<[ "TIMEOUT" := "60" ]> demo_env) in
  (timeout string <$> a1) = Some 300%Z /\
  (timeout string <$> a2) = Some 60%Z /\
  sdk string w1 = sdk string w2 /\
  r1 = r2 /\
  files string w1 !! "logs/conversation_20240115_100330.json" =
    files string w2 !! "logs/conversation_20240115_100330.json" /\
  log string w1 = log string w2.
Proof.
  vm_compute. repeat split.
Qed.

(** ** The further properties on concrete runs *)

Lemma init_builds_object_witness :
  exists w',
    __init__ string keep_text read_decimal
      (demo_world string demo_env ∅ (normal_end string)) =
      (Ok (demo_assistant string "1.0"), w') /\
    sdk string w' = [New_ElevenLabs string None].
Proof.
  destruct (init_builds_object string keep_text read_decimal
              (demo_world string demo_env ∅ (normal_end string))
              "abc123" "1.0" 300%Z)
    as (w' & Hrun & Hsdk & _).
  - reflexivity.
  - discriminate.
  - reflexivity.
  - reflexivity.
  - exists w'. split; [exact Hrun | exact Hsdk].
Defined.

Lemma empty_agent_id_refused_witness :
  exists w',
    main string keep_text read_decimal id
      (demo_world string {[ "AGENT_ID" := "" ]} ∅ (normal_end string)) =
      (Exit 1, None, w') /\
    sdk string w' = [].
Proof.
  destruct (empty_agent_id_refused string keep_text read_decimal id
              (demo_world string {[ "AGENT_ID" := "" ]} ∅ (normal_end string)))
    as (_ & _ & _ & w'' & Hmain & Hsdk & _).
  - reflexivity.
  - exists w''. split; [exact Hmain | exact Hsdk].
Defined.



Lemma constructor_failure_witness :
  exists s',
    start string id
      (mkSys string (demo_assistant string "1.0")
             (demo_world string demo_env ∅ (constructor_raises string))) = (Exit 1, s') /\
    length (sdk string (world string s')) = 1%nat /\
    conversation string (self string s') = None.
Proof.
  destruct (constructor_failure string id (demo_assistant string "1.0")
              (demo_world string demo_env ∅ (constructor_raises string))
              (mkExn "TypeError" "unexpected keyword"))
    as (s' & Hrun & Hsdk & Hconv & _).
  - reflexivity.
  - reflexivity.
  - reflexivity.
  - exists s'. split; [exact Hrun|]. split; [|exact Hconv].
    rewrite Hsdk. reflexivity.
Defined.

Lemma start_session_failure_witness :
  exists s',
    start string id
      (mkSys string (demo_assistant string "1.0")
             (demo_world string demo_env ∅ (start_session_raises_script string))) =
      (Exit 1, s') /\
    last (sdk string (world string s')) = Some (End_session string).
Proof.
  destruct (start_session_failure string id (demo_assistant string "1.0")
              (demo_world string demo_env ∅ (start_session_raises_script string))
              (mkExn "OSError" "no microphone"))
    as (s' & Hrun & Hsdk & _).
  - reflexivity.
  - reflexivity.
  - reflexivity.
  - reflexivity.
  - exists s'. split; [exact Hrun|]. rewrite Hsdk. reflexivity.
Defined.

Lemma end_session_failure_skips_save_witness :
  exists s',
    start string id
      (mkSys string (demo_assistant string "1.0")
             (demo_world string demo_env {[ "logs" ]} (end_session_raises_script string))) =
      (Raise (mkExn "RuntimeError" "already closed"), s') /\
    files string (world string s') = ∅.
Proof.
  destruct (end_session_failure_skips_save string id
              (demo_assistant string "1.0")
              (demo_world string demo_env {[ "logs" ]} (end_session_raises_script string))
              (mkExn "ConnectionError" "connection lost")
              (mkExn "RuntimeError" "already closed"))
    as (s' & Hrun & Hfiles & _).
  - reflexivity.
  - reflexivity.
  - reflexivity.
  - reflexivity.
  - exists s'. split; [exact Hrun | exact Hfiles].
Defined.

Lemma normal_end_save_failure_witness :
  exists s',
    start string id
      (mkSys string (demo_assistant string "1.0")
             (mkWorld string demo_env ∅ ∅ {[ "logs" := JNull ]} [] demo_clock 0
                      false [] (normal_end string))) =
      (Raise (mkExn "NotADirectoryError"
                "[Errno 20] Not a directory: 'logs/conversation_error.json'"),
       s') /\
    last (sdk string (world string s')) = Some (End_session string).
Proof.
  destruct (normal_end_save_failure string id (demo_assistant string "1.0")
              (mkWorld string demo_env ∅ ∅ {[ "logs" := JNull ]} [] demo_clock 0
                       false [] (normal_end string)) "conv_1")
    as (s' & Hrun & Hsdk & _).
  - reflexivity.
  - reflexivity.
  - reflexivity.
  - reflexivity.
  - discriminate.
  - apply not_elem_of_empty.
  - exists JNull. reflexivity.
  - exists s'. split; [exact Hrun | exact Hsdk].
Defined.

Lemma interrupt_mid_session_witness :
  exists s',
    start string id
      (mkSys string (demo_assistant string "1.0")
             (demo_world string demo_env ∅ (interrupted_session string))) = (Ok tt, s') /\
    End_session string ∈ sdk string (world string s') /\
    length (history string (self string s')) = 1%nat.
Proof.
  destruct (interrupt_mid_session string id (demo_assistant string "1.0")
              (demo_world string demo_env ∅ (interrupted_session string)) "conv_5"
              [UserTranscript string "hello"] [])
    as (s' & Hrun & Hin & Hh & _).
  - reflexivity.
  - reflexivity.
  - reflexivity.
  - reflexivity.
  - reflexivity.
  - discriminate.
  - reflexivity.
  - apply not_elem_of_empty.
  - exists s'. split; [exact Hrun|]. split; [exact Hin|].
    rewrite Hh. reflexivity.
Defined.

Lemma streaming_error_saved_witness :
  exists s' doc,
    start string id
      (mkSys string (demo_assistant string "1.0")
             (demo_world string demo_env {[ "logs" ]} (streaming_error string))) =
      (Exit 1, s') /\
    files string (world string s') !! "logs/conversation_error.json" = Some doc.
Proof.
  destruct (streaming_error_saved string id (demo_assistant string "1.0")
              (demo_world string demo_env {[ "logs" ]} (streaming_error string))
              (mkExn "ConnectionError" "connection lost"))
    as (s' & doc & Hrun & _ & Hfile & _).
  - reflexivity.
  - reflexivity.
  - reflexivity.
  - reflexivity.
  - discriminate.
  - now apply elem_of_singleton.
  - intros H. unfold demo_world in H; cbn [dirs] in H.
    apply elem_of_singleton in H. discriminate H.
  - exists s', doc. split; [exact Hrun | exact Hfile].
Defined.

Lemma callbacks_stamp_entries_witness :
  exists s',
    for_each (deliver string id) (hello_events string)
      (mkSys string (demo_assistant string "1.0")
             (demo_world string demo_env ∅ (normal_end string))) = (Ok tt, s') /\
    history string (self string s') =
      [mkEntry "user" "hello" "2024-01-15T10:00:30";
       mkEntry "agent" "hi there" "2024-01-15T10:01:30"] /\
    ticks string (world string s') = 2%nat.
Proof.
  destruct (callbacks_stamp_entries string id (hello_events string)
              (mkSys string (demo_assistant string "1.0")
                     (demo_world string demo_env ∅ (normal_end string))))
    as (s' & Hrun & Hh & Ht & _).
  - reflexivity.
  - exists s'. split; [exact Hrun|]. split; [exact Hh | exact Ht].
Defined.
